(** * Resume_Viewer: the report renderer of [src/App.tsx]

    A shallow embedding of the three functions of [App.tsx] that carry
    behaviour: [analyzeResume] (the constant analysis producer),
    [handleDownloadReport] (the paginated PDF renderer) and its local
    closure [addSection].

    The jsPDF document object is modelled by its observable state: the
    page size, the active font size and text colour, and the text items
    drawn on each page.  The layout cursor [yPos] and the document are
    threaded explicitly through the renderer, one command per source
    statement. *)

From Stdlib Require Import ZArith QArith Qround List String Ascii Bool Lia Lqa.
From Stdlib Require Import DecimalString.
Import ListNotations.

Open Scope string_scope.
Open Scope Z_scope.

(** ** The data model: [interface ResumeAnalysis] *)

Record Feedback := mkFeedback {
  fb_score : Z;
  feedback : list string
}.

Record Keywords := mkKeywords {
  kw_score : Z;
  found : list string;
  missing : list string
}.

Record DetailedAnalysis := mkDetailedAnalysis {
  readability : Feedback;
  keywords : Keywords;
  experience : Feedback;
  education : Feedback
}.

Record Suggestions := mkSuggestions {
  critical : list string;
  recommended : list string;
  optional : list string
}.

Record SemanticAnalysis := mkSemanticAnalysis {
  measurableAchievements : Z;
  skillsEfficiencyRatio : Q;
  impactVerbs : list string;
  industryKeywords : list string
}.

Record ResumeAnalysis := mkResumeAnalysis {
  score : Z;
  fileName : string;
  filePreview : string;
  detailedAnalysis : DetailedAnalysis;
  softSkills : list string;
  hardSkills : list string;
  suggestions : Suggestions;
  semanticAnalysis : SemanticAnalysis
}.

(** The browser's [File]: the renderer and the producer only read its
    name; the content is what [getFilePreview] turns into a data URL. *)
Record File := mkFile {
  name : string;
  content : string
}.

(** The component state held by the three [useState] hooks. *)
Record AppState := mkAppState {
  file : option File;
  isDragging : bool;
  analysis : option ResumeAnalysis
}.

(** ** The jsPDF document *)

Inductive Align := AlignLeft | AlignCenter.

Definition RGB : Type := (Z * Z * Z)%type.

(** One call of [doc.text]: the string, its position, the alignment
    option, and the font size and colour active at the call. *)
Record TextItem := mkItem {
  it_text : string;
  it_x : Q;
  it_y : Q;
  it_align : Align;
  it_size : Z;
  it_color : RGB
}.

Record PageSize := mkPageSize {
  width : Q;
  height : Q
}.

(** [donePages] are the pages before the current one, oldest first;
    [curPage] is the page [doc.text] draws on.  Items are kept in the
    order they were drawn. *)
Record jsPDF := mkDoc {
  pageSize : PageSize;
  fontSize : Z;
  textColor : RGB;
  donePages : list (list TextItem);
  curPage : list TextItem
}.

(** [new jsPDF()]: one empty page, font size 16, black text. *)
Definition newDoc (ps : PageSize) : jsPDF :=
  mkDoc ps 16 (0, 0, 0) [] [].

(** Modelled from the spec: the "standard page dimensions" of its
    end-to-end scenario, which the source obtains from
    [doc.internal.pageSize] of [new jsPDF()].  jsPDF is a dependency and
    not part of the repository; its default page is A4 portrait in
    millimetres, that is 595.28pt x 841.89pt divided by the scale factor
    72/25.4.  The general theorems below take the page size as a
    parameter and [a4] instantiates them. *)
Definition a4 : PageSize := mkPageSize (15120112 # 72000) (21384006 # 72000).

Definition setFontSize (n : Z) (d : jsPDF) : jsPDF :=
  mkDoc (pageSize d) n (textColor d) (donePages d) (curPage d).

Definition setTextColor (r g b : Z) (d : jsPDF) : jsPDF :=
  mkDoc (pageSize d) (fontSize d) (r, g, b) (donePages d) (curPage d).

Definition text (t : string) (x y : Q) (al : Align) (d : jsPDF) : jsPDF :=
  mkDoc (pageSize d) (fontSize d) (textColor d) (donePages d)
        (curPage d ++ [mkItem t x y al (fontSize d) (textColor d)]).

Definition addPage (d : jsPDF) : jsPDF :=
  mkDoc (pageSize d) (fontSize d) (textColor d)
        (donePages d ++ [curPage d]) [].

Definition allPages (d : jsPDF) : list (list TextItem) :=
  donePages d ++ [curPage d].

Definition numPages (d : jsPDF) : nat := List.length (allPages d).

Definition allItems (d : jsPDF) : list TextItem := List.concat (allPages d).

(** ** The layout state and its commands *)

Record Layout := mkLayout {
  doc : jsPDF;
  yPos : Z
}.

Definition Cmd : Type := Layout -> Layout.

Definition seq (c1 c2 : Cmd) : Cmd := fun s => c2 (c1 s).

Declare Scope cmd_scope.
Delimit Scope cmd_scope with cmd.
Notation "c1 ;; c2" := (seq c1 c2) (at level 61, right associativity) : cmd_scope.
Bind Scope cmd_scope with Cmd.

(** A method call on [doc] that leaves the cursor alone. *)
Definition onDoc (f : jsPDF -> jsPDF) : Cmd :=
  fun s => mkLayout (f (doc s)) (yPos s).

(** [doc.text(t, x, yPos)] *)
Definition textAt (t : string) (x : Q) : Cmd :=
  fun s => mkLayout (text t x (inject_Z (yPos s)) AlignLeft (doc s)) (yPos s).

(** [yPos += n] *)
Definition advance (n : Z) : Cmd :=
  fun s => mkLayout (doc s) (yPos s + n).

Definition forEach {A : Type} (l : list A) (body : A -> Cmd) : Cmd :=
  fun s => fold_left (fun acc a => body a acc) l s.

(** [a > b] on numbers. *)
Definition Qgtb (a b : Q) : bool := negb (Qle_bool a b).

(** ** [handleDownloadReport] *)

Definition lineHeight : Z := 10.
Definition margin : Z := 20.

(** The string literal of line 141, byte for byte as the source file
    has it (seven bytes and a space). *)
Definition bullet : string := "â€¢ ".

(** [`${n}`] for a number holding an integer. *)
Definition numberToString (n : Z) : string :=
  NilZero.string_of_int (Z.to_int n).

Definition titleText : string := "Resume Analysis Report".
Definition footerText : string :=
  "Generated by Resume Check - Comprehensive ATS Analysis Report".
Definition saveName : string := "detailed-resume-analysis.pdf".

(** What the browser has been asked to save. *)
Definition Downloads : Type := list (string * jsPDF).

Section Renderer.

(** [doc.splitTextToSize(text, maxWidth)] of jsPDF, which measures
    with the active font size; the first argument is that size. *)
Variable splitTextToSize : Z -> string -> Q -> list string.

(** [doc.internal.pageSize] of a fresh document. *)
Variable ps : PageSize.

(** [pageWidth - (margin * 2) - 10] *)
Definition printableWidth : Q :=
  width ps - inject_Z (margin * 2) - 10.

(** [doc.internal.pageSize.height - margin] *)
Definition threshold (d : jsPDF) : Q :=
  height (pageSize d) - inject_Z margin.

(** The body of [lines.forEach]: lines 137-142. *)
Definition drawLine (line : string) : Cmd :=
  fun s =>
    let s1 := if Qgtb (inject_Z (yPos s)) (threshold (doc s))
              then mkLayout (addPage (doc s)) margin
              else s in
    mkLayout (text (bullet ++ line) (inject_Z (margin + 5))
                   (inject_Z (yPos s1)) AlignLeft (doc s1))
             (yPos s1 + lineHeight).

(** The body of [content.forEach]: lines 135-143. *)
Definition drawItem (item : string) : Cmd :=
  fun s =>
    forEach (splitTextToSize (fontSize (doc s)) item printableWidth)
            drawLine s.

(** Lines 126-146. *)
Definition addSection (title : string) (content : list string) : Cmd :=
  (onDoc (setFontSize 14) ;;
   onDoc (setTextColor 0 128 128) ;;
   textAt title (inject_Z margin) ;;
   advance lineHeight ;;
   onDoc (setFontSize 12) ;;
   onDoc (setTextColor 0 0 0) ;;
   forEach content drawItem ;;
   advance lineHeight)%cmd.

(** Lines 106-123: title, file information and overall score. *)
Definition header (today : string) (a : ResumeAnalysis) : Cmd :=
  (onDoc (setFontSize 24) ;;
   onDoc (setTextColor 0 128 128) ;;
   textAt titleText (inject_Z margin) ;;
   advance (lineHeight * 2) ;;
   onDoc (setFontSize 12) ;;
   onDoc (setTextColor 0 0 0) ;;
   textAt ("File Name: " ++ fileName a) (inject_Z margin) ;;
   advance lineHeight ;;
   textAt ("Analysis Date: " ++ today) (inject_Z margin) ;;
   advance (lineHeight * 2) ;;
   onDoc (setFontSize 16) ;;
   textAt ("Overall ATS Score: " ++ numberToString (score a) ++ "/100")
          (inject_Z margin) ;;
   advance (lineHeight * 2))%cmd.

(** Lines 149-166. *)
Definition sections (a : ResumeAnalysis) : Cmd :=
  (addSection "Readability Analysis"
              (feedback (readability (detailedAnalysis a))) ;;
   addSection "Keyword Analysis"
     [ "Found Keywords: "
         ++ String.concat ", " (found (keywords (detailedAnalysis a)));
       "Missing Important Keywords: "
         ++ String.concat ", " (missing (keywords (detailedAnalysis a))) ] ;;
   addSection "Experience Analysis"
              (feedback (experience (detailedAnalysis a))) ;;
   addSection "Education Analysis"
              (feedback (education (detailedAnalysis a))) ;;
   addSection "Impact Verbs Used" (impactVerbs (semanticAnalysis a)) ;;
   addSection "Industry-Specific Keywords"
              (industryKeywords (semanticAnalysis a)) ;;
   addSection "Critical Improvements Needed" (critical (suggestions a)) ;;
   addSection "Recommended Improvements" (recommended (suggestions a)) ;;
   addSection "Optional Enhancements" (optional (suggestions a)) ;;
   addSection "Hard Skills" (hardSkills a) ;;
   addSection "Soft Skills" (softSkills a))%cmd.

(** Lines 169-172. *)
Definition footer : Cmd :=
  (onDoc (setFontSize 10) ;;
   onDoc (setTextColor 128 128 128) ;;
   onDoc (fun d => text footerText (width ps / 2)
                        (height (pageSize d) - 10) AlignCenter d))%cmd.

(** Lines 100-172: everything between [new jsPDF()] and [doc.save].
    [today] is [new Date().toLocaleDateString()]. *)
Definition render (today : string) (a : ResumeAnalysis) : Layout :=
  (header today a ;; sections a ;; footer)%cmd (mkLayout (newDoc ps) 20).

(** Lines 97-176.  [doc.save(name)] hands the finished document to
    the browser under [name]. *)
Definition handleDownloadReport (today : string) (st : AppState)
           (saved : Downloads) : Downloads :=
  match analysis st with
  | None => saved
  | Some a => (saved ++ [(saveName, doc (render today a))])%list
  end.

End Renderer.

(** ** [analyzeResume] (lines 178-272) *)

Definition analyzeResume (uploaded : File) (filePreview : string)
           (st : AppState) : AppState :=
  mkAppState (file st) (isDragging st) (Some
    (mkResumeAnalysis
       85
       (name uploaded)
       filePreview
       (mkDetailedAnalysis
          (mkFeedback 90
             [ "Good use of clear, concise language";
               "Professional tone maintained throughout";
               "Consider breaking down longer paragraphs for better readability";
               "Some sentences could be more concise" ])
          (mkKeywords 85
             [ "project management"; "agile"; "leadership";
               "strategic planning" ]
             [ "data analysis"; "budget management";
               "stakeholder communication" ])
          (mkFeedback 88
             [ "Strong demonstration of progressive responsibility";
               "Quantifiable achievements well documented";
               "Consider adding more specific project outcomes";
               "Include technology stack details for technical projects" ])
          (mkFeedback 95
             [ "Relevant certifications clearly listed";
               "Academic achievements well presented";
               "Consider adding relevant coursework section";
               "Include any academic projects related to target role" ]))
       [ "Leadership"; "Communication"; "Problem Solving"; "Teamwork";
         "Adaptability"; "Time Management"; "Critical Thinking" ]
       [ "React"; "TypeScript"; "Node.js"; "Python"; "Project Management";
         "Agile Methodologies"; "Data Analysis" ]
       (mkSuggestions
          [ "Add more quantifiable achievements with specific metrics";
            "Include relevant certifications and their dates";
            "Optimize keywords for ATS systems" ]
          [ "Enhance professional summary with industry-specific keywords";
            "Add a skills matrix section";
            "Include relevant volunteer work or side projects" ]
          [ "Consider adding a brief personal statement";
            "Include relevant social media profiles";
            "Add language proficiency levels" ])
       (mkSemanticAnalysis 6 1
          [ "Led"; "Implemented"; "Developed"; "Managed"; "Orchestrated";
            "Streamlined" ]
          [ "Digital Transformation"; "Agile Development";
            "Cross-functional Teams"; "Strategic Planning" ]))).

(** ** A stand-in for jsPDF's text measure and splitter

    jsPDF is a dependency and not part of the repository.  The concrete
    runs below need its wrapping of the strings they render, so they use
    what follows: the widths of jsPDF's default font and a greedy wrapper
    in the manner of its [splitTextToSize].  No general theorem depends
    on them. *)

(** Widths of the Helvetica glyphs for the character codes 32 to 126,
    in thousandths of the font size (the Adobe font metrics of the
    font; kerning is left out). *)
Definition helveticaTable : list Z :=
  [ 278; 278; 355; 556; 556; 889; 667; 191; 333; 333; 389; 584; 278; 333;
    278; 278;
    556; 556; 556; 556; 556; 556; 556; 556; 556; 556;
    278; 278; 584; 584; 584; 556; 1015;
    667; 667; 722; 722; 667; 611; 778; 722; 278; 500; 667; 556; 833; 722;
    778; 667; 778; 722; 667; 611; 722; 667; 944; 667; 667; 611;
    278; 278; 278; 469; 556; 333;
    556; 556; 500; 556; 556; 278; 556; 556; 222; 222; 500; 222; 833; 556;
    556; 556; 556; 333; 500; 278; 556; 500; 722; 500; 500; 500;
    334; 260; 334; 584 ].

(** The width of one byte of a string: the table for the printable
    ASCII codes; outside ASCII, 556 (the width of each of the three
    characters of [bullet]) on the first byte of a character and nothing
    on its continuation bytes. *)
Definition helveticaUnits (c : ascii) : Z :=
  let n := nat_of_ascii c in
  if (n <? 32)%nat then 0
  else if (n <? 127)%nat then nth (n - 32) helveticaTable 0
  else if (n <? 192)%nat then 0
  else 556.

Fixpoint stringUnits (s : string) : Z :=
  match s with
  | EmptyString => 0
  | String c s' => helveticaUnits c + stringUnits s'
  end.

(** The width of a string at font size [fs] points, in millimetres. *)
Definition helveticaWidth (fs : Z) (s : string) : Q :=
  inject_Z (fs * stringUnits s) * (254 # 720000).

(** [s.split(" ")]: the pieces between single spaces, empty pieces
    included.  [cur] is the piece being read. *)
Fixpoint splitFrom (cur : string) (s : string) : list string :=
  match s with
  | EmptyString => [cur]
  | String c s' =>
      if Ascii.eqb c " "
      then cur :: splitFrom "" s'
      else splitFrom (cur ++ String c "") s'
  end.

Definition splitOnSpace (s : string) : list string := splitFrom "" s.

(** Greedy filling: a piece goes on the current line unless the line
    would then be wider than [w].  A piece that is itself wider than [w]
    is left whole here (jsPDF cuts it); no concrete run below wraps such
    a string. *)
Fixpoint fillHelvetica (fs : Z) (w : Q) (cur : string) (ws : list string)
  : list string :=
  match ws with
  | [] => [cur]
  | x :: rest =>
      if Qgtb (helveticaWidth fs (cur ++ " " ++ x)) w
      then cur :: fillHelvetica fs w x rest
      else fillHelvetica fs w (cur ++ " " ++ x) rest
  end.

Definition helveticaSplit (fs : Z) (s : string) (w : Q) : list string :=
  match splitOnSpace s with
  | [] => [s]
  | x :: rest => fillHelvetica fs w x rest
  end.

(** A splitter for strings that fit the width: one line, unchanged. *)
Definition oneLine (_ : Z) (s : string) (_ : Q) : list string := [s].

Definition initialState : AppState := mkAppState None false None.

Definition sampleFile : File := mkFile "resume.pdf" "%PDF-1.4".

Definition sampleState : AppState :=
  analyzeResume sampleFile "data:application/pdf;base64,JVBERi0xLjQ="
                initialState.

(** The document for the report of [analyzeResume] on the A4 page, with
    the strings wrapped as the 12pt Helvetica widths make jsPDF wrap
    them: 47 strings, 48 lines. *)
Definition sampleDoc : jsPDF :=
  match analysis sampleState with
  | Some a => doc (render helveticaSplit a4 "11/2/2026" a)
  | None => newDoc a4
  end.

(** The report [analyzeResume] stored for [sampleFile]. *)
Definition sampleReport : ResumeAnalysis :=
  match analysis sampleState with
  | Some a => a
  | None => mkResumeAnalysis 0 "" "" (mkDetailedAnalysis (mkFeedback 0 [])
              (mkKeywords 0 [] []) (mkFeedback 0 []) (mkFeedback 0 []))
              [] [] (mkSuggestions [] [] []) (mkSemanticAnalysis 0 0 [] [])
  end.

(** Everything in a report except the two fields taken from the upload. *)
Definition fixedPart (r : ResumeAnalysis) :=
  (score r, detailedAnalysis r, softSkills r, hardSkills r, suggestions r,
   semanticAnalysis r).

(** The input of the end-to-end scenario of the specification. *)
Definition matchesScenario (a : ResumeAnalysis) : Prop :=
  score a = 85
  /\ List.length (feedback (readability (detailedAnalysis a))) = 4%nat
  /\ List.length (found (keywords (detailedAnalysis a))) = 4%nat
  /\ List.length (missing (keywords (detailedAnalysis a))) = 3%nat
  /\ List.length (hardSkills a) = 7%nat
  /\ List.length (softSkills a) = 7%nat
  /\ List.length (critical (suggestions a)) = 3%nat
  /\ List.length (recommended (suggestions a)) = 3%nat
  /\ List.length (optional (suggestions a)) = 3%nat.

(** A report in which every list field is empty. *)
Definition allListsEmpty (a : ResumeAnalysis) : Prop :=
  feedback (readability (detailedAnalysis a)) = []
  /\ found (keywords (detailedAnalysis a)) = []
  /\ missing (keywords (detailedAnalysis a)) = []
  /\ feedback (experience (detailedAnalysis a)) = []
  /\ feedback (education (detailedAnalysis a)) = []
  /\ softSkills a = []
  /\ hardSkills a = []
  /\ critical (suggestions a) = []
  /\ recommended (suggestions a) = []
  /\ optional (suggestions a) = []
  /\ impactVerbs (semanticAnalysis a) = []
  /\ industryKeywords (semanticAnalysis a) = [].

Definition emptyReport : ResumeAnalysis :=
  mkResumeAnalysis 0 "resume.pdf" ""
    (mkDetailedAnalysis (mkFeedback 0 []) (mkKeywords 0 [] [])
                        (mkFeedback 0 []) (mkFeedback 0 []))
    [] [] (mkSuggestions [] [] []) (mkSemanticAnalysis 0 0 [] []).

Definition emptyDoc : jsPDF :=
  doc (render oneLine a4 "11/2/2026" emptyReport).

(** ** Observations on a document *)

(** Everything [doc.text] recorded except the vertical position. *)
Definition Style : Type := (string * Q * Align * Z * RGB)%type.

Definition sty (it : TextItem) : Style :=
  (it_text it, it_x it, it_align it, it_size it, it_color it).

Definition styles (d : jsPDF) : list Style := map sty (allItems d).

Definition teal : RGB := (0, 128, 128).
Definition black : RGB := (0, 0, 0).
Definition grey : RGB := (128, 128, 128).

(** A wrapped content line is drawn at the bullet indent [margin + 5]
    in the 12pt body font; nothing else in the report is. *)
Definition isContentSty (st : Style) : bool :=
  match st with
  | (_, x, _, size, _) => Qeq_bool x (inject_Z (margin + 5)) && (size =? 12)
  end.

Definition isContentLine (it : TextItem) : bool := isContentSty (sty it).

Definition lineSty (size : Z) (color : RGB) (l : string) : Style :=
  (bullet ++ l, inject_Z (margin + 5), AlignLeft, size, color).

Definition headingSty (title : string) : Style :=
  (title, inject_Z margin, AlignLeft, 14, teal).

(** The cursor position a line is drawn at, after the page-break check. *)
Definition lineY (s : Layout) : Z :=
  if Qgtb (inject_Z (yPos s)) (threshold (doc s)) then margin else yPos s.

(** ** The report as the renderer walks it *)

(** The first six statements of [addSection]: the heading. *)
Definition beginSection (title : string) : Cmd :=
  (onDoc (setFontSize 14) ;;
   onDoc (setTextColor 0 128 128) ;;
   textAt title (inject_Z margin) ;;
   advance lineHeight ;;
   onDoc (setFontSize 12) ;;
   onDoc (setTextColor 0 0 0))%cmd.

(** The wrapped lines of a section's content, in drawing order; the
    body font is 12pt when [splitTextToSize] is called. *)
Definition wrapped (splitTextToSize : Z -> string -> Q -> list string)
           (ps : PageSize) (content : list string) : list string :=
  flat_map (fun item => splitTextToSize 12 item (printableWidth ps)) content.

(** The section list of the specification, section 4.1 step 4: heading
    and content of each section, in the order stated there. *)
Definition sectionOrder (a : ResumeAnalysis) : list (string * list string) :=
  [ ("Readability Analysis", feedback (readability (detailedAnalysis a)));
    ("Keyword Analysis",
     [ "Found Keywords: "
         ++ String.concat ", " (found (keywords (detailedAnalysis a)));
       "Missing Important Keywords: "
         ++ String.concat ", " (missing (keywords (detailedAnalysis a))) ]);
    ("Experience Analysis", feedback (experience (detailedAnalysis a)));
    ("Education Analysis", feedback (education (detailedAnalysis a)));
    ("Impact Verbs Used", impactVerbs (semanticAnalysis a));
    ("Industry-Specific Keywords", industryKeywords (semanticAnalysis a));
    ("Critical Improvements Needed", critical (suggestions a));
    ("Recommended Improvements", recommended (suggestions a));
    ("Optional Enhancements", optional (suggestions a));
    ("Hard Skills", hardSkills a);
    ("Soft Skills", softSkills a) ].

(** All wrapped content lines of a report: the combined line count of
    the pagination property is the length of this list. *)
Definition reportLines (splitTextToSize : Z -> string -> Q -> list string)
           (ps : PageSize) (a : ResumeAnalysis) : list string :=
  flat_map (fun p => wrapped splitTextToSize ps (snd p)) (sectionOrder a).

Definition sectionStyles (splitTextToSize : Z -> string -> Q -> list string)
           (ps : PageSize) (p : string * list string) : list Style :=
  headingSty (fst p)
  :: map (lineSty 12 black) (wrapped splitTextToSize ps (snd p)).

Definition headerStyles (today : string) (a : ResumeAnalysis) : list Style :=
  [ (titleText, inject_Z margin, AlignLeft, 24, teal);
    ("File Name: " ++ fileName a, inject_Z margin, AlignLeft, 12, black);
    ("Analysis Date: " ++ today, inject_Z margin, AlignLeft, 12, black);
    ("Overall ATS Score: " ++ numberToString (score a) ++ "/100",
     inject_Z margin, AlignLeft, 16, black) ].

Definition footerSty (ps : PageSize) : Style :=
  (footerText, (width ps / 2)%Q, AlignCenter, 10, grey).

(** One page's capacity as the specification computes it. *)
Definition capacity (ps : PageSize) : Z :=
  Qfloor ((height ps - inject_Z margin - inject_Z margin)
          / inject_Z lineHeight).

(** A content line drawn at or above [thr]. *)
Definition aboveThreshold (thr : Q) (it : TextItem) : Prop :=
  isContentLine it = true -> (it_y it <= thr)%Q.

(** The layout state after the title block, and after the last section. *)
Definition afterHeader (ps : PageSize) (today : string) (a : ResumeAnalysis)
  : Layout :=
  header today a (mkLayout (newDoc ps) 20).

Definition beforeFooter (splitTextToSize : Z -> string -> Q -> list string)
           (ps : PageSize) (today : string) (a : ResumeAnalysis) : Layout :=
  forEach (sectionOrder a)
          (fun p => addSection splitTextToSize ps (fst p) (snd p))
          (afterHeader ps today a).

(** The footer as [doc.text] records it. *)
Definition footerItem (ps : PageSize) : TextItem :=
  mkItem footerText (width ps / 2) (height ps - 10) AlignCenter 10 grey.

Definition styText (st : Style) : string :=
  match st with (t, _, _, _, _) => t end.

Definition isHeadingSty (st : Style) : bool :=
  match st with (_, _, _, size, _) => size =? 14 end.

Definition isFooterText (st : Style) : bool :=
  (styText st =? footerText)%string.

(** The sections starting with the cursor at [y] fit the current page:
    the last line of every section that has lines is drawn at or above
    [thr]. *)
Fixpoint secsFit (splitTextToSize : Z -> string -> Q -> list string)
         (ps : PageSize) (thr : Q) (y : Z)
         (secs : list (string * list string)) : Prop :=
  match secs with
  | [] => True
  | p :: rest =>
      let n := Z.of_nat (List.length (wrapped splitTextToSize ps (snd p))) in
      (wrapped splitTextToSize ps (snd p) <> [] ->
       (inject_Z (y + lineHeight * n) <= thr)%Q)
      /\ secsFit splitTextToSize ps thr
                 (y + 2 * lineHeight + lineHeight * n) rest
  end.

(** ** Comparing documents up to the generation timestamp *)

(** The metadata line of line 117 is the one text that begins with
    "Analysis Date: ". *)
Fixpoint startsWith (p s : string) : bool :=
  match p with
  | EmptyString => true
  | String a p' =>
      match s with
      | EmptyString => false
      | String b s' => Ascii.eqb a b && startsWith p' s'
      end
  end.

Definition isTimestamp (it : TextItem) : bool :=
  startsWith "Analysis Date: " (it_text it).

Definition keepItem (it : TextItem) : bool := negb (isTimestamp it).

(** The document with the timestamp line left out of the comparison. *)
Definition withoutTimestamp (d : jsPDF) : jsPDF :=
  mkDoc (pageSize d) (fontSize d) (textColor d)
        (map (filter keepItem) (donePages d))
        (filter keepItem (curPage d)).

Definition maskLayout (s : Layout) : Layout :=
  mkLayout (withoutTimestamp (doc s)) (yPos s).

(** ** Words and wrapping *)








(** ** Layout invariants *)

(** The title as [doc.text] records it. *)
Definition titleItem : TextItem :=
  mkItem titleText (inject_Z margin) (inject_Z 20) AlignLeft 24 teal.

(** [b] is drawn at least one line height below [a]. *)
Definition lineApart (a b : TextItem) : Prop :=
  (it_y a + inject_Z lineHeight <= it_y b)%Q.

(** The items of a page, in drawing order, each at least one line
    height below all the items drawn before it. *)
Fixpoint Spaced (p : list TextItem) : Prop :=
  match p with
  | [] => True
  | it :: rest => Forall (lineApart it) rest /\ Spaced rest
  end.

(** A page that begins with a bulleted content line at the top margin. *)
Definition Opened (p : list TextItem) : Prop :=
  exists l tl,
    p = mkItem (bullet ++ l) (inject_Z (margin + 5)) (inject_Z margin)
               AlignLeft 12 black :: tl.

(** The first page begins with the title and every later page with a
    content line. *)
Definition pagesGood (pages : list (list TextItem)) : Prop :=
  exists first rest,
    pages = first :: rest
    /\ hd_error first = Some titleItem
    /\ Forall Opened rest.

(** Every page is [Spaced], the cursor is at least one line height
    below everything on the current page, and nothing lies above the
    top margin. *)
Definition wellSpaced (s : Layout) : Prop :=
  Forall Spaced (donePages (doc s))
  /\ Spaced (curPage (doc s))
  /\ Forall (fun it => (it_y it + inject_Z lineHeight
                        <= inject_Z (yPos s))%Q) (curPage (doc s))
  /\ Forall (fun it => (inject_Z margin <= it_y it)%Q) (allItems (doc s))
  /\ margin <= yPos s.

(** The fields of a report that the renderer draws. *)
Definition drawnFields (a : ResumeAnalysis) :=
  (score a, fileName a,
   (feedback (readability (detailedAnalysis a)),
    found (keywords (detailedAnalysis a)),
    missing (keywords (detailedAnalysis a)),
    feedback (experience (detailedAnalysis a)),
    feedback (education (detailedAnalysis a))),
   (impactVerbs (semanticAnalysis a), industryKeywords (semanticAnalysis a)),
   (critical (suggestions a), recommended (suggestions a),
    optional (suggestions a)),
   (hardSkills a, softSkills a)).

(** A report that differs from [sampleReport] in every field the
    renderer does not draw. *)
Definition sampleReportOtherHidden : ResumeAnalysis :=
  mkResumeAnalysis
    (score sampleReport) (fileName sampleReport) "data:text/plain;base64,AAAA"
    (mkDetailedAnalysis
       (mkFeedback 1 (feedback (readability (detailedAnalysis sampleReport))))
       (mkKeywords 2 (found (keywords (detailedAnalysis sampleReport)))
                   (missing (keywords (detailedAnalysis sampleReport))))
       (mkFeedback 3 (feedback (experience (detailedAnalysis sampleReport))))
       (mkFeedback 4 (feedback (education (detailedAnalysis sampleReport)))))
    (softSkills sampleReport) (hardSkills sampleReport)
    (suggestions sampleReport)
    (mkSemanticAnalysis 0 (1 # 2)
       (impactVerbs (semanticAnalysis sampleReport))
       (industryKeywords (semanticAnalysis sampleReport))).

(** ** The component's event handlers (lines 49-95) *)

(** [setFile] and [setIsDragging] of the [useState] hooks. *)
Definition setFile (f : File) (st : AppState) : AppState :=
  mkAppState (Some f) (isDragging st) (analysis st).

Definition setIsDragging (b : bool) (st : AppState) : AppState :=
  mkAppState (file st) b (analysis st).

(** The component state, the [FileReader] reads in flight (oldest
    first), and the files the browser was asked to save.  The scroll
    timer of lines 82-84 acts on the page only and is not part of the
    state. *)
Record World := mkWorld {
  appState : AppState;
  reading : list File;
  downloads : Downloads
}.

Definition initialWorld : World := mkWorld initialState [] [].

(** What the user and the browser do to the component.  [Drop] and
    [FileSelect] carry the event's file list ([e.target.files] may be
    null); [PreviewLoaded i] is the [onload] of the [i]-th read in
    flight; [DownloadClick] carries the date the clock shows. *)
Inductive Event :=
| DragOver
| DragLeave
| Drop (files : list File)
| FileSelect (files : option (list File))
| PreviewLoaded (i : nat)
| DownloadClick (today : string).

Definition isPreviewLoaded (e : Event) : bool :=
  match e with PreviewLoaded _ => true | _ => false end.

(** Reads complete in the order they were started. *)
Definition inOrder (e : Event) : Prop :=
  match e with PreviewLoaded i => i = 0%nat | _ => True end.

Section App.

Variable splitTextToSize : Z -> string -> Q -> list string.
Variable ps : PageSize.

(** The data URL [FileReader.readAsDataURL] produces for a file. *)
Variable readAsDataURL : File -> string.

(** Lines 49-52. *)
Definition handleDragOver (w : World) : World :=
  mkWorld (setIsDragging true (appState w)) (reading w) (downloads w).

(** Lines 54-57. *)
Definition handleDragLeave (w : World) : World :=
  mkWorld (setIsDragging false (appState w)) (reading w) (downloads w).

(** Lines 87-95: the promise resolves with the reader's result. *)
Definition getFilePreview (f : File) : string := readAsDataURL f.

(** Lines 75-78, up to the [await]: the file is stored and its read
    started. *)
Definition handleFileUpload (uploadedFile : File) (w : World) : World :=
  mkWorld (setFile uploadedFile (appState w))
          (reading w ++ [uploadedFile])%list (downloads w).

(** Lines 78-79, after the [await]: the [i]-th read in flight has
    loaded and its file is analysed. *)
Definition fileUploadLoaded (i : nat) (w : World) : World :=
  match nth_error (reading w) i with
  | None => w
  | Some f =>
      mkWorld (analyzeResume f (getFilePreview f) (appState w))
              (firstn i (reading w) ++ skipn (S i) (reading w))%list
              (downloads w)
  end.

(** Lines 59-66. *)
Definition handleDrop (files : list File) (w : World) : World :=
  let w1 := mkWorld (setIsDragging false (appState w)) (reading w)
                    (downloads w) in
  match files with
  | [] => w1
  | droppedFile :: _ => handleFileUpload droppedFile w1
  end.

(** Lines 68-73. *)
Definition handleFileSelect (files : option (list File)) (w : World)
  : World :=
  match files with
  | Some (selectedFile :: _) => handleFileUpload selectedFile w
  | _ => w
  end.

(** The button of lines 637-643. *)
Definition clickDownload (today : string) (w : World) : World :=
  mkWorld (appState w) (reading w)
          (handleDownloadReport splitTextToSize ps today (appState w)
                                (downloads w)).

Definition step (e : Event) (w : World) : World :=
  match e with
  | DragOver => handleDragOver w
  | DragLeave => handleDragLeave w
  | Drop files => handleDrop files w
  | FileSelect files => handleFileSelect files w
  | PreviewLoaded i => fileUploadLoaded i w
  | DownloadClick today => clickDownload today w
  end.

Definition run (t : list Event) (w : World) : World :=
  fold_left (fun acc e => step e acc) t w.

End App.

(** The file an event uploads: the first of its list, if it has one. *)
Definition uploadOf (e : Event) : list File :=
  match e with
  | Drop (f :: _) => [f]
  | FileSelect (Some (f :: _)) => [f]
  | _ => []
  end.

Definition uploadsOf (t : list Event) : list File := flat_map uploadOf t.

(** The report [analyzeResume] makes of file [f]. *)
Definition reportOf (readAsDataURL : File -> string) (f : File)
           (r : ResumeAnalysis) : Prop :=
  fileName r = name f
  /\ filePreview r = readAsDataURL f
  /\ fixedPart r = fixedPart sampleReport.

(** What holds of the world after the events [t]. *)
Definition appInv (readAsDataURL : File -> string) (t : list Event)
           (w : World) : Prop :=
  file (appState w) = hd_error (rev (uploadsOf t))
  /\ incl (reading w) (uploadsOf t)
  /\ match analysis (appState w) with
     | None => True
     | Some r => exists f, In f (uploadsOf t) /\ reportOf readAsDataURL f r
     end
  /\ Forall (fun d => fst d = saveName) (downloads w).

(** With reads completing in order: either no read is in flight and
    the stored report, if any, is the one of the current file, or the
    newest read in flight is the one of the current file. *)
Definition settled (readAsDataURL : File -> string) (w : World) : Prop :=
  match file (appState w), analysis (appState w) with
  | None, None => True
  | Some f, Some r =>
      fileName r = name f /\ filePreview r = readAsDataURL f
  | _, _ => False
  end.

Definition fifoInv (readAsDataURL : File -> string) (w : World) : Prop :=
  (reading w = [] /\ settled readAsDataURL w)
  \/ (exists front f,
        reading w = (front ++ [f])%list /\ file (appState w) = Some f).

(** Stand-ins for concrete runs: a second file and a reader. *)
Definition otherFile : File := mkFile "cv.docx" "PK".

Definition sampleReader (f : File) : string :=
  "data:;base64," ++ content f.

(** * Basic facts *)

Lemma Qgtb_true (a b : Q) : Qgtb a b = true <-> (b < a)%Q.
Proof.
  unfold Qgtb. rewrite negb_true_iff. split; intro H.
  - apply Qnot_le_lt. intro Hle. apply Qle_bool_iff in Hle. congruence.
  - destruct (Qle_bool a b) eqn:E; [|reflexivity].
    apply Qle_bool_iff in E. exfalso. exact (Qlt_not_le _ _ H E).
Qed.

Lemma Qgtb_false (a b : Q) : Qgtb a b = false <-> (a <= b)%Q.
Proof.
  unfold Qgtb. rewrite negb_false_iff. apply Qle_bool_iff.
Qed.

Lemma Qdiv_lt_mult (a b c : Q) :
  (0 < b)%Q -> (a / b < c)%Q -> (a < c * b)%Q.
Proof.
  intros Hb H. apply (Qmult_lt_r _ _ b Hb) in H.
  assert (Hab : (a / b * b == a)%Q).
  { field. intro Hz. rewrite Hz in Hb. discriminate Hb. }
  now rewrite Hab in H.
Qed.

Lemma allItems_text t x y al d :
  allItems (text t x y al d)
  = (allItems d ++ [mkItem t x y al (fontSize d) (textColor d)])%list.
Proof.
  unfold allItems, allPages, text; cbn [donePages curPage].
  rewrite !concat_app. cbn [List.concat]. rewrite !app_nil_r.
  now rewrite app_assoc.
Qed.

Lemma allItems_addPage d : allItems (addPage d) = allItems d.
Proof.
  unfold allItems, allPages, addPage; cbn [donePages curPage].
  rewrite !concat_app. cbn [List.concat]. now rewrite !app_nil_r.
Qed.

Lemma numPages_addPage d : numPages (addPage d) = S (numPages d).
Proof.
  unfold numPages, allPages, addPage; cbn [donePages curPage].
  rewrite !length_app. cbn. lia.
Qed.

Lemma numPages_text t x y al d : numPages (text t x y al d) = numPages d.
Proof.
  unfold numPages, allPages, text; cbn [donePages curPage].
  now rewrite !length_app.
Qed.

Lemma forEach_nil {A} (body : A -> Cmd) s : forEach [] body s = s.
Proof. reflexivity. Qed.

Lemma forEach_cons {A} (body : A -> Cmd) x l s :
  forEach (x :: l) body s = forEach l body (body x s).
Proof. reflexivity. Qed.

Lemma forEach_app {A} (body : A -> Cmd) l1 l2 s :
  forEach (l1 ++ l2) body s = forEach l2 body (forEach l1 body s).
Proof. unfold forEach. apply fold_left_app. Qed.

(** ** One content line *)

Lemma drawLine_break line s :
  (threshold (doc s) < inject_Z (yPos s))%Q ->
  drawLine line s
  = mkLayout (text (bullet ++ line) (inject_Z (margin + 5)) (inject_Z margin)
                   AlignLeft (addPage (doc s)))
             (margin + lineHeight).
Proof.
  intro H. apply Qgtb_true in H. unfold drawLine. now rewrite H.
Qed.

Lemma drawLine_stay line s :
  (inject_Z (yPos s) <= threshold (doc s))%Q ->
  drawLine line s
  = mkLayout (text (bullet ++ line) (inject_Z (margin + 5))
                   (inject_Z (yPos s)) AlignLeft (doc s))
             (yPos s + lineHeight).
Proof.
  intro H. apply Qgtb_false in H. unfold drawLine. now rewrite H.
Qed.

Lemma drawLine_yPos line s : yPos (drawLine line s) = lineY s + lineHeight.
Proof. unfold drawLine, lineY. now destruct (Qgtb _ _). Qed.

Lemma drawLine_pageSize line s :
  pageSize (doc (drawLine line s)) = pageSize (doc s).
Proof. unfold drawLine. now destruct (Qgtb _ _). Qed.

Lemma drawLine_fontSize line s :
  fontSize (doc (drawLine line s)) = fontSize (doc s).
Proof. unfold drawLine. now destruct (Qgtb _ _). Qed.

Lemma drawLine_textColor line s :
  textColor (doc (drawLine line s)) = textColor (doc s).
Proof. unfold drawLine. now destruct (Qgtb _ _). Qed.

Lemma drawLine_items line s :
  allItems (doc (drawLine line s))
  = (allItems (doc s)
     ++ [mkItem (bullet ++ line) (inject_Z (margin + 5)) (inject_Z (lineY s))
                AlignLeft (fontSize (doc s)) (textColor (doc s))])%list.
Proof.
  unfold drawLine, lineY. destruct (Qgtb _ _); cbn [doc yPos];
    rewrite allItems_text; [rewrite allItems_addPage|]; reflexivity.
Qed.

Lemma drawLine_numPages line s :
  numPages (doc (drawLine line s))
  = if Qgtb (inject_Z (yPos s)) (threshold (doc s))
    then S (numPages (doc s)) else numPages (doc s).
Proof.
  unfold drawLine. destruct (Qgtb _ _); cbn [doc yPos];
    rewrite numPages_text; [apply numPages_addPage|reflexivity].
Qed.

(** ** A run of content lines *)

Lemma threshold_pageSize d' d :
  pageSize d' = pageSize d -> threshold d' = threshold d.
Proof. unfold threshold. now intros ->. Qed.

Lemma lines_pageSize lines : forall s,
  pageSize (doc (forEach lines drawLine s)) = pageSize (doc s).
Proof.
  induction lines as [|l lines IH]; intro s; [reflexivity|].
  rewrite forEach_cons, IH. apply drawLine_pageSize.
Qed.

Lemma lines_fontSize lines : forall s,
  fontSize (doc (forEach lines drawLine s)) = fontSize (doc s).
Proof.
  induction lines as [|l lines IH]; intro s; [reflexivity|].
  rewrite forEach_cons, IH. apply drawLine_fontSize.
Qed.

Lemma lines_textColor lines : forall s,
  textColor (doc (forEach lines drawLine s)) = textColor (doc s).
Proof.
  induction lines as [|l lines IH]; intro s; [reflexivity|].
  rewrite forEach_cons, IH. apply drawLine_textColor.
Qed.

Lemma lines_styles lines : forall s,
  styles (doc (forEach lines drawLine s))
  = (styles (doc s)
     ++ map (lineSty (fontSize (doc s)) (textColor (doc s))) lines)%list.
Proof.
  induction lines as [|l lines IH]; intro s.
  - cbn [map]. now rewrite app_nil_r.
  - rewrite forEach_cons, IH, drawLine_fontSize, drawLine_textColor.
    unfold styles. rewrite drawLine_items, map_app, <- app_assoc.
    reflexivity.
Qed.


Lemma lines_numPages_mono lines : forall s,
  (numPages (doc s) <= numPages (doc (forEach lines drawLine s)))%nat.
Proof.
  induction lines as [|l lines IH]; intro s; [apply Nat.le_refl|].
  rewrite forEach_cons. etransitivity; [|apply IH].
  rewrite drawLine_numPages. destruct (Qgtb _ _); lia.
Qed.

(** If a run of lines adds no page, every line passed the check where
    it stood: the cursor moved down one line height per line, and the
    last line was drawn at or above the threshold. *)
Lemma lines_no_break lines : forall s,
  numPages (doc (forEach lines drawLine s)) = numPages (doc s) ->
  yPos (forEach lines drawLine s)
  = yPos s + lineHeight * Z.of_nat (List.length lines)
  /\ (lines <> [] ->
      (inject_Z (yPos s + lineHeight * (Z.of_nat (List.length lines) - 1))
       <= threshold (doc s))%Q).
Proof.
  induction lines as [|l lines IH]; intros s Hn.
  - cbn. split; [unfold lineHeight; lia|congruence].
  - rewrite forEach_cons in *.
    pose proof (lines_numPages_mono lines (drawLine l s)) as Hmono.
    pose proof (drawLine_numPages l s) as Hstep.
    destruct (Qgtb (inject_Z (yPos s)) (threshold (doc s))) eqn:Hc; [lia|].
    apply Qgtb_false in Hc.
    destruct (IH (drawLine l s)) as [Hy Hlast]; [lia|].
    rewrite (drawLine_stay _ _ Hc) in Hy, Hlast. cbn [yPos doc] in Hy, Hlast.
    rewrite (drawLine_stay _ _ Hc). split.
    + rewrite Hy. cbn [List.length]. unfold lineHeight. lia.
    + intros _. destruct lines as [|l' lines'].
      * cbn [List.length Z.of_nat Pos.of_succ_nat].
        replace (yPos s + lineHeight * (1 - 1)) with (yPos s)
          by (unfold lineHeight; lia).
        exact Hc.
      * rewrite (threshold_pageSize _ (doc s)) in Hlast by reflexivity.
        eapply Qle_trans; [|apply Hlast; congruence].
        rewrite <- Zle_Qle. cbn [List.length]. unfold lineHeight. lia.
Qed.

(** Conversely, lines that all fit above the threshold add no page. *)
Lemma lines_fit lines : forall s,
  (lines <> [] ->
   (inject_Z (yPos s + lineHeight * (Z.of_nat (List.length lines) - 1))
    <= threshold (doc s))%Q) ->
  numPages (doc (forEach lines drawLine s)) = numPages (doc s)
  /\ yPos (forEach lines drawLine s)
     = yPos s + lineHeight * Z.of_nat (List.length lines).
Proof.
  induction lines as [|l lines IH]; intros s Hfit.
  - cbn. split; [reflexivity|unfold lineHeight; lia].
  - assert (Hc : (inject_Z (yPos s) <= threshold (doc s))%Q).
    { eapply Qle_trans; [|apply Hfit; congruence].
      rewrite <- Zle_Qle. cbn [List.length]. unfold lineHeight. lia. }
    rewrite forEach_cons, (drawLine_stay _ _ Hc).
    destruct (IH (mkLayout
                    (text (bullet ++ l) (inject_Z (margin + 5))
                          (inject_Z (yPos s)) AlignLeft (doc s))
                    (yPos s + lineHeight))) as [Hn Hy].
    + intros Hne. cbn [yPos doc].
      rewrite (threshold_pageSize _ (doc s)) by reflexivity.
      eapply Qle_trans; [|apply Hfit; congruence].
      rewrite <- Zle_Qle. cbn [List.length]. unfold lineHeight. lia.
    + cbn [yPos doc] in Hn, Hy. rewrite Hn, Hy, numPages_text.
      split; [reflexivity|]. cbn [List.length]. unfold lineHeight. lia.
Qed.

(** Every content line is drawn at or above the threshold, provided the
    top margin itself is. *)
Lemma lineY_le s :
  (inject_Z margin <= threshold (doc s))%Q ->
  (inject_Z (lineY s) <= threshold (doc s))%Q.
Proof.
  intro Hm. unfold lineY.
  destruct (Qgtb _ _) eqn:Hc; [exact Hm|now apply Qgtb_false in Hc].
Qed.

Lemma lines_above lines : forall s,
  (inject_Z margin <= threshold (doc s))%Q ->
  Forall (aboveThreshold (threshold (doc s))) (allItems (doc s)) ->
  Forall (aboveThreshold (threshold (doc s)))
         (allItems (doc (forEach lines drawLine s))).
Proof.
  induction lines as [|l lines IH]; intros s Hm Hall; [exact Hall|].
  rewrite forEach_cons.
  rewrite <- (threshold_pageSize (doc (drawLine l s)) (doc s))
    by apply drawLine_pageSize.
  apply IH.
  - now rewrite (threshold_pageSize _ (doc s)) by apply drawLine_pageSize.
  - rewrite (threshold_pageSize _ (doc s)) by apply drawLine_pageSize.
    rewrite drawLine_items. apply Forall_app. split; [exact Hall|].
    constructor; [|constructor]. intros _. cbn [it_y]. now apply lineY_le.
Qed.

(** ** Sections *)

Section SectionFacts.

Variable splitTextToSize : Z -> string -> Q -> list string.
Variable ps : PageSize.

#[local] Abbreviation wrap := (wrapped splitTextToSize ps).
#[local] Abbreviation addSec := (addSection splitTextToSize ps).
#[local] Abbreviation addSecs :=
  (fun secs => forEach secs (fun p => addSec (fst p) (snd p))).

Lemma items_flat content : forall s,
  fontSize (doc s) = 12 ->
  forEach content (drawItem splitTextToSize ps) s
  = forEach (wrap content) drawLine s.
Proof.
  induction content as [|item content IH]; intros s Hf; [reflexivity|].
  rewrite forEach_cons. unfold wrapped. cbn [flat_map].
  rewrite forEach_app. unfold drawItem at 2. rewrite Hf.
  apply IH. now rewrite lines_fontSize.
Qed.

Lemma addSection_eq title content s :
  addSec title content s
  = advance lineHeight (forEach (wrap content) drawLine
                                (beginSection title s)).
Proof.
  unfold addSection, seq. rewrite items_flat; reflexivity.
Qed.

Lemma sections_eq a s :
  sections splitTextToSize ps a s = addSecs (sectionOrder a) s.
Proof. reflexivity. Qed.

Lemma beginSection_numPages title s :
  numPages (doc (beginSection title s)) = numPages (doc s).
Proof.
  unfold numPages, allPages, beginSection, seq, onDoc, textAt, advance.
  cbn [doc setTextColor setFontSize text donePages curPage].
  now rewrite !length_app.
Qed.

Lemma beginSection_items title s :
  allItems (doc (beginSection title s))
  = (allItems (doc s)
     ++ [mkItem title (inject_Z margin) (inject_Z (yPos s)) AlignLeft
                14 teal])%list.
Proof.
  unfold beginSection, seq, onDoc, textAt, advance. cbn [doc yPos].
  unfold allItems, allPages.
  cbn [setTextColor setFontSize text donePages curPage fontSize textColor].
  rewrite !concat_app. cbn [List.concat]. rewrite !app_nil_r.
  now rewrite app_assoc.
Qed.

Lemma addSection_pageSize title content s :
  pageSize (doc (addSec title content s)) = pageSize (doc s).
Proof. rewrite addSection_eq. cbn [advance doc]. now rewrite lines_pageSize. Qed.

Lemma addSection_fontSize title content s :
  fontSize (doc (addSec title content s)) = 12.
Proof. rewrite addSection_eq. cbn [advance doc]. now rewrite lines_fontSize. Qed.

Lemma addSection_textColor title content s :
  textColor (doc (addSec title content s)) = black.
Proof. rewrite addSection_eq. cbn [advance doc]. now rewrite lines_textColor. Qed.

Lemma addSection_styles title content s :
  styles (doc (addSec title content s))
  = (styles (doc s) ++ sectionStyles splitTextToSize ps (title, content))%list.
Proof.
  rewrite addSection_eq. cbn [advance doc]. rewrite lines_styles.
  unfold styles at 1. rewrite beginSection_items, map_app, <- app_assoc.
  reflexivity.
Qed.

Lemma addSection_numPages_mono title content s :
  (numPages (doc s) <= numPages (doc (addSec title content s)))%nat.
Proof.
  rewrite addSection_eq. cbn [advance doc].
  rewrite <- (beginSection_numPages title s). apply lines_numPages_mono.
Qed.

Lemma addSection_no_break title content s :
  numPages (doc (addSec title content s)) = numPages (doc s) ->
  yPos (addSec title content s)
  = yPos s + 2 * lineHeight
    + lineHeight * Z.of_nat (List.length (wrap content))
  /\ (wrap content <> [] ->
      (inject_Z (yPos s
                 + lineHeight * Z.of_nat (List.length (wrap content)))
       <= threshold (doc s))%Q).
Proof.
  rewrite addSection_eq. cbn [advance doc yPos]. intro Hn.
  destruct (lines_no_break (wrap content) (beginSection title s))
    as [Hy Hlast]; [now rewrite beginSection_numPages|].
  rewrite Hy. change (yPos (beginSection title s)) with (yPos s + lineHeight).
  split; [unfold lineHeight; lia|].
  intro Hne. eapply Qle_trans; [|apply (Hlast Hne)].
  rewrite <- Zle_Qle.
  change (yPos (beginSection title s)) with (yPos s + lineHeight).
  unfold lineHeight. lia.
Qed.

Lemma addSection_fit title content s :
  (wrap content <> [] ->
   (inject_Z (yPos s
              + lineHeight * Z.of_nat (List.length (wrap content)))
    <= threshold (doc s))%Q) ->
  numPages (doc (addSec title content s)) = numPages (doc s)
  /\ yPos (addSec title content s)
     = yPos s + 2 * lineHeight
       + lineHeight * Z.of_nat (List.length (wrap content)).
Proof.
  intro Hfit. rewrite addSection_eq. cbn [advance doc yPos].
  destruct (lines_fit (wrap content) (beginSection title s)) as [Hn Hy].
  - intro Hne. eapply Qle_trans; [|apply (Hfit Hne)].
    rewrite <- Zle_Qle.
    change (yPos (beginSection title s)) with (yPos s + lineHeight).
    unfold lineHeight. lia.
  - rewrite Hn, Hy, beginSection_numPages. split; [reflexivity|].
    change (yPos (beginSection title s)) with (yPos s + lineHeight).
    unfold lineHeight. lia.
Qed.

Lemma addSection_above title content s :
  (inject_Z margin <= threshold (doc s))%Q ->
  Forall (aboveThreshold (threshold (doc s))) (allItems (doc s)) ->
  Forall (aboveThreshold (threshold (doc s)))
         (allItems (doc (addSec title content s))).
Proof.
  intros Hm Hall. rewrite addSection_eq. cbn [advance doc].
  change (threshold (doc s)) with (threshold (doc (beginSection title s))).
  apply lines_above; [exact Hm|].
  rewrite beginSection_items. apply Forall_app. split; [exact Hall|].
  constructor; [|constructor]. intro Hc. discriminate Hc.
Qed.

End SectionFacts.

(** ** The whole report *)

Section ReportFacts.

Variable splitTextToSize : Z -> string -> Q -> list string.
Variable ps : PageSize.

#[local] Abbreviation wrap := (wrapped splitTextToSize ps).
#[local] Abbreviation addSec := (addSection splitTextToSize ps).
#[local] Abbreviation addSecs :=
  (fun secs => forEach secs (fun p => addSec (fst p) (snd p))).
#[local] Abbreviation linesOf :=
  (flat_map (fun p : string * list string => wrap (snd p))).

Lemma secs_pageSize secs : forall s,
  pageSize (doc (addSecs secs s)) = pageSize (doc s).
Proof.
  induction secs as [|p secs IH]; intro s; [reflexivity|].
  rewrite forEach_cons, IH. apply addSection_pageSize.
Qed.

Lemma secs_styles secs : forall s,
  styles (doc (addSecs secs s))
  = (styles (doc s)
     ++ flat_map (sectionStyles splitTextToSize ps) secs)%list.
Proof.
  induction secs as [|[t c] secs IH]; intro s.
  - cbn [flat_map]. now rewrite app_nil_r.
  - rewrite forEach_cons, IH. cbn [fst snd flat_map].
    now rewrite addSection_styles, <- app_assoc.
Qed.

Lemma secs_numPages_mono secs : forall s,
  (numPages (doc s) <= numPages (doc (addSecs secs s)))%nat.
Proof.
  induction secs as [|p secs IH]; intro s; [apply Nat.le_refl|].
  rewrite forEach_cons. etransitivity; [|apply IH].
  apply addSection_numPages_mono.
Qed.

(** If the sections add no page, the last content line was drawn no
    higher than one line height per line below where they began. *)
Lemma secs_no_break secs : forall s,
  numPages (doc (addSecs secs s)) = numPages (doc s) ->
  linesOf secs <> [] ->
  (inject_Z (yPos s + lineHeight * Z.of_nat (List.length (linesOf secs)))
   <= threshold (doc s))%Q.
Proof.
  induction secs as [|[t c] secs IH]; intros s Hn Hne; [now elim Hne|].
  rewrite forEach_cons in Hn. cbn [fst snd] in Hn.
  pose proof (secs_numPages_mono secs (addSec t c s)) as Hmono.
  pose proof (addSection_numPages_mono splitTextToSize ps t c s) as Hstep.
  destruct (addSection_no_break splitTextToSize ps t c s) as [Hy Hlast];
    [lia|].
  cbn [flat_map snd] in *. rewrite length_app, Nat2Z.inj_add.
  destruct (linesOf secs) as [|l rest] eqn:Hrest.
  - rewrite app_nil_r in Hne. cbn [List.length Z.of_nat].
    rewrite Z.add_0_r. now apply Hlast.
  - specialize (IH (addSec t c s)).
    rewrite (threshold_pageSize _ (doc s)) in IH
      by apply addSection_pageSize.
    eapply Qle_trans; [|apply IH; [lia|congruence]].
    rewrite <- Zle_Qle, Hy. unfold lineHeight. lia.
Qed.

Lemma secs_above secs : forall s,
  (inject_Z margin <= threshold (doc s))%Q ->
  Forall (aboveThreshold (threshold (doc s))) (allItems (doc s)) ->
  Forall (aboveThreshold (threshold (doc s)))
         (allItems (doc (addSecs secs s))).
Proof.
  induction secs as [|[t c] secs IH]; intros s Hm Hall; [exact Hall|].
  rewrite forEach_cons. cbn [fst snd].
  rewrite <- (threshold_pageSize (doc (addSec t c s)) (doc s))
    by apply addSection_pageSize.
  apply IH; rewrite (threshold_pageSize _ (doc s))
    by apply addSection_pageSize; [exact Hm|].
  now apply addSection_above.
Qed.

(** *** After the header *)

Lemma afterHeader_yPos today a : yPos (afterHeader ps today a) = 90.
Proof. reflexivity. Qed.

Lemma afterHeader_pageSize today a :
  pageSize (doc (afterHeader ps today a)) = ps.
Proof. reflexivity. Qed.

Lemma afterHeader_numPages today a :
  numPages (doc (afterHeader ps today a)) = 1%nat.
Proof. reflexivity. Qed.

Lemma afterHeader_styles today a :
  styles (doc (afterHeader ps today a)) = headerStyles today a.
Proof. reflexivity. Qed.

Lemma render_eq today a :
  render splitTextToSize ps today a
  = footer ps (addSecs (sectionOrder a) (afterHeader ps today a)).
Proof. reflexivity. Qed.

Lemma beforeFooter_pageSize today a :
  pageSize (doc (beforeFooter splitTextToSize ps today a)) = ps.
Proof. unfold beforeFooter. now rewrite secs_pageSize. Qed.

Lemma render_doc today a :
  doc (render splitTextToSize ps today a)
  = mkDoc ps 10 grey (donePages (doc (beforeFooter splitTextToSize ps today a)))
          (curPage (doc (beforeFooter splitTextToSize ps today a)) ++ [footerItem ps]).
Proof.
  rewrite render_eq. fold (beforeFooter splitTextToSize ps today a).
  unfold footer, seq, onDoc. cbn [doc]. unfold text.
  cbn [setTextColor setFontSize pageSize fontSize textColor donePages
       curPage].
  now rewrite beforeFooter_pageSize.
Qed.

Lemma render_items today a :
  allItems (doc (render splitTextToSize ps today a))
  = (allItems (doc (beforeFooter splitTextToSize ps today a)) ++ [footerItem ps])%list.
Proof.
  rewrite render_doc. unfold allItems, allPages. cbn [donePages curPage].
  rewrite !concat_app. cbn [List.concat]. rewrite !app_nil_r.
  now rewrite app_assoc.
Qed.

Lemma render_numPages today a :
  numPages (doc (render splitTextToSize ps today a))
  = numPages (doc (beforeFooter splitTextToSize ps today a)).
Proof.
  rewrite render_doc. unfold numPages, allPages. cbn [donePages curPage].
  now rewrite !length_app.
Qed.

Lemma render_styles today a :
  styles (doc (render splitTextToSize ps today a))
  = (headerStyles today a
     ++ flat_map (sectionStyles splitTextToSize ps) (sectionOrder a)
     ++ [footerSty ps])%list.
Proof.
  unfold styles. rewrite render_items, map_app.
  fold (styles (doc (beforeFooter splitTextToSize ps today a))). unfold beforeFooter.
  rewrite secs_styles, afterHeader_styles, <- app_assoc. reflexivity.
Qed.

(** More wrapped lines than one page's capacity force a second page. *)
Lemma overflow_adds_page today a :
  0 <= capacity ps ->
  capacity ps < Z.of_nat (List.length (reportLines splitTextToSize ps a)) ->
  (1 < numPages (doc (render splitTextToSize ps today a)))%nat.
Proof.
  intros Hpos Hcap. rewrite render_numPages. unfold beforeFooter.
  pose proof (secs_numPages_mono (sectionOrder a) (afterHeader ps today a))
    as Hmono.
  rewrite afterHeader_numPages in Hmono.
  destruct (Nat.eq_dec
              (numPages (doc (addSecs (sectionOrder a)
                                      (afterHeader ps today a)))) 1)
    as [Hone|]; [exfalso|lia].
  unfold reportLines in Hcap.
  assert (Hne : linesOf (sectionOrder a) <> []).
  { intro Hnil. rewrite Hnil in Hcap. cbn [List.length Z.of_nat] in Hcap.
    lia. }
  pose proof (secs_no_break (sectionOrder a) (afterHeader ps today a)
                            Hone Hne) as Hlast.
  set (n := Z.of_nat (List.length (linesOf (sectionOrder a)))) in *.
  rewrite afterHeader_yPos in Hlast. unfold threshold in Hlast.
  rewrite afterHeader_pageSize in Hlast.
  assert (Hfl : ((height ps - inject_Z margin - inject_Z margin)
                 / inject_Z lineHeight < inject_Z n)%Q).
  { eapply Qlt_le_trans; [apply Qlt_floor|].
    rewrite <- Zle_Qle. unfold capacity in Hcap. lia. }
  rewrite inject_Z_plus, inject_Z_mult in Hlast.
  unfold margin, lineHeight in *.
  apply Qdiv_lt_mult in Hfl; [|reflexivity].
  change (inject_Z 20) with (20 # 1)%Q in *.
  change (inject_Z 10) with (10 # 1)%Q in *.
  change (inject_Z 90) with (90 # 1)%Q in *.
  lra.
Qed.

(** *** Selecting items by style *)

Lemma filter_sty (f : Style -> bool) (l : list TextItem) :
  map sty (filter (fun it => f (sty it)) l) = filter f (map sty l).
Proof.
  induction l as [|it l IH]; [reflexivity|].
  cbn [filter map]. destruct (f (sty it)); cbn [map]; now rewrite IH.
Qed.

Lemma filter_lines_none (f : Style -> bool) lines :
  (forall l, f (lineSty 12 black l) = false) ->
  filter f (map (lineSty 12 black) lines) = [].
Proof.
  intro Hf. induction lines as [|l lines IH]; [reflexivity|].
  cbn [map filter]. now rewrite Hf.
Qed.

Lemma filter_lines_all (f : Style -> bool) lines :
  (forall l, f (lineSty 12 black l) = true) ->
  filter f (map (lineSty 12 black) lines) = map (lineSty 12 black) lines.
Proof.
  intro Hf. induction lines as [|l lines IH]; [reflexivity|].
  cbn [map filter]. now rewrite Hf, IH.
Qed.

Lemma filter_sections_headings (f : Style -> bool) secs :
  (forall l, f (lineSty 12 black l) = false) ->
  filter f (flat_map (sectionStyles splitTextToSize ps) secs)
  = filter f (map (fun p => headingSty (fst p)) secs).
Proof.
  intro Hf. induction secs as [|[t c] secs IH]; [reflexivity|].
  cbn [flat_map map fst]. unfold sectionStyles at 1. cbn [fst snd].
  rewrite <- app_comm_cons. cbn [filter].
  rewrite filter_app, filter_lines_none by exact Hf. rewrite IH.
  now destruct (f (headingSty t)).
Qed.

Lemma filter_sections_lines (f : Style -> bool) secs :
  (forall l, f (lineSty 12 black l) = true) ->
  (forall t, f (headingSty t) = false) ->
  filter f (flat_map (sectionStyles splitTextToSize ps) secs)
  = map (lineSty 12 black) (linesOf secs).
Proof.
  intros Hl Hh. induction secs as [|[t c] secs IH]; [reflexivity|].
  cbn [flat_map]. unfold sectionStyles at 1. cbn [fst snd].
  rewrite <- app_comm_cons. cbn [filter].
  rewrite Hh, filter_app, filter_lines_all by exact Hl.
  now rewrite IH, map_app.
Qed.

Lemma isContentSty_footer : isContentSty (footerSty ps) = false.
Proof. unfold isContentSty, footerSty. apply andb_false_r. Qed.

Lemma content_styles today a :
  filter isContentSty (styles (doc (render splitTextToSize ps today a)))
  = map (lineSty 12 black) (reportLines splitTextToSize ps a).
Proof.
  rewrite render_styles, !filter_app.
  rewrite (filter_sections_lines isContentSty) by reflexivity.
  cbn [filter]. rewrite isContentSty_footer.
  change (filter isContentSty (headerStyles today a)) with (@nil Style).
  now rewrite app_nil_r.
Qed.

Lemma content_texts today a :
  map it_text
      (filter isContentLine
              (allItems (doc (render splitTextToSize ps today a))))
  = map (append bullet) (reportLines splitTextToSize ps a).
Proof.
  transitivity
    (map styText
         (map sty (filter (fun it => isContentSty (sty it))
                     (allItems (doc (render splitTextToSize ps today a)))))).
  - rewrite map_map. reflexivity.
  - rewrite filter_sty. fold (styles (doc (render splitTextToSize ps today a))).
    rewrite content_styles, map_map. reflexivity.
Qed.

Lemma render_above today a :
  (inject_Z (2 * margin) <= height ps)%Q ->
  Forall (aboveThreshold (height ps - inject_Z margin))
         (allItems (doc (render splitTextToSize ps today a))).
Proof.
  intro Hps.
  assert (Hm : (inject_Z margin <= height ps - inject_Z margin)%Q).
  { unfold margin in *. change (inject_Z (2 * 20)) with (40 # 1)%Q in Hps.
    change (inject_Z 20) with (20 # 1)%Q. lra. }
  rewrite render_items. apply Forall_app. split.
  - unfold beforeFooter.
    change (height ps - inject_Z margin)%Q
      with (threshold (doc (afterHeader ps today a))).
    apply secs_above; [exact Hm|].
    repeat constructor; intro Hc; discriminate Hc.
  - constructor; [|constructor]. intro Hc. exfalso.
    unfold isContentLine in Hc.
    change (sty (footerItem ps)) with (footerSty ps) in Hc.
    rewrite isContentSty_footer in Hc. discriminate Hc.
Qed.

Lemma footer_unique today a :
  filter (fun it => isFooterText (sty it))
         (allItems (doc (beforeFooter splitTextToSize ps today a)))
  = [].
Proof.
  apply (map_eq_nil sty). rewrite filter_sty.
  fold (styles (doc (beforeFooter splitTextToSize ps today a))).
  unfold beforeFooter. rewrite secs_styles, afterHeader_styles, filter_app.
  rewrite (filter_sections_headings isFooterText) by reflexivity.
  reflexivity.
Qed.

Lemma heading_styles today a :
  filter isHeadingSty (styles (doc (render splitTextToSize ps today a)))
  = map (fun p => headingSty (fst p)) (sectionOrder a).
Proof.
  rewrite render_styles, !filter_app.
  rewrite (filter_sections_headings isHeadingSty) by reflexivity.
  reflexivity.
Qed.

End ReportFacts.

(** * The claims *)

Lemma fillHelvetica_nonempty fs w ws : forall cur,
  fillHelvetica fs w cur ws <> [].
Proof.
  induction ws as [|x ws IH]; intro cur; cbn [fillHelvetica];
    [discriminate|].
  destruct (Qgtb _ _); [discriminate|apply IH].
Qed.

Lemma helveticaSplit_nonempty fs item w : helveticaSplit fs item w <> [].
Proof.
  unfold helveticaSplit. destruct (splitOnSpace item);
    [discriminate|apply fillHelvetica_nonempty].
Qed.

Lemma capacity_nonneg ps :
  (inject_Z (2 * margin) <= height ps)%Q -> 0 <= capacity ps.
Proof.
  intro Hps. unfold capacity.
  change 0 with (Qfloor 0). apply Qfloor_resp_le.
  apply Qle_shift_div_l; [reflexivity|].
  unfold margin, lineHeight in *.
  change (inject_Z (2 * 20)) with (40 # 1)%Q in Hps.
  change (inject_Z 20) with (20 # 1)%Q. change (inject_Z 10) with (10 # 1)%Q.
  lra.
Qed.

Lemma texts_of_styles (l : list TextItem) :
  map it_text l = map styText (map sty l).
Proof. rewrite map_map. reflexivity. Qed.

Lemma section_texts splitTextToSize ps secs :
  map styText (flat_map (sectionStyles splitTextToSize ps) secs)
  = flat_map (fun p => fst p
                       :: map (append bullet)
                              (wrapped splitTextToSize ps (snd p))) secs.
Proof.
  induction secs as [|[t c] secs IH]; [reflexivity|].
  cbn [flat_map]. rewrite map_app, IH. unfold sectionStyles at 1.
  cbn [fst snd map]. rewrite map_map. reflexivity.
Qed.

(** C1, as amended.  On a page at least two margins high: a report
    whose wrapped content lines outnumber one page's capacity
    [floor ((pageHeight - topMargin - bottomMargin) / lineHeight)] is
    rendered on more than one page; before a wrapped content line is
    drawn the renderer compares the cursor with the bottom-margin
    threshold and, when the cursor is beyond it, adds a page and resets
    the cursor to the top margin; the bulleted lines of the document are
    the wrapped content lines, in order; and no wrapped content line is
    drawn below the bottom-margin threshold, on any page. *)
Theorem pagination_correct
        (splitTextToSize : Z -> string -> Q -> list string) (ps : PageSize)
        (today : string) (a : ResumeAnalysis) :
  (inject_Z (2 * margin) <= height ps)%Q ->
  (capacity ps < Z.of_nat (List.length (reportLines splitTextToSize ps a)) ->
   (1 < numPages (doc (render splitTextToSize ps today a)))%nat)
  /\ (forall line s,
        drawLine line s
        = if Qgtb (inject_Z (yPos s)) (threshold (doc s))
          then mkLayout (text (bullet ++ line) (inject_Z (margin + 5))
                              (inject_Z margin) AlignLeft (addPage (doc s)))
                        (margin + lineHeight)
          else mkLayout (text (bullet ++ line) (inject_Z (margin + 5))
                              (inject_Z (yPos s)) AlignLeft (doc s))
                        (yPos s + lineHeight))
  /\ map it_text
         (filter isContentLine
                 (allItems (doc (render splitTextToSize ps today a))))
     = map (append bullet) (reportLines splitTextToSize ps a)
  /\ Forall (fun it => isContentLine it = true ->
                       (it_y it <= height ps - inject_Z margin)%Q)
            (allItems (doc (render splitTextToSize ps today a))).
Proof.
  intro Hps. split; [|split; [|split]].
  - apply overflow_adds_page. now apply capacity_nonneg.
  - intros line s. unfold drawLine. now destruct (Qgtb _ _).
  - apply content_texts.
  - now apply render_above.
Qed.

Lemma pagination_correct_witness :
  (inject_Z (2 * margin) <= height a4)%Q
  /\ (1 < numPages sampleDoc)%nat
  /\ Forall (fun it => isContentLine it = true ->
                       (it_y it <= height a4 - inject_Z margin)%Q)
            (allItems sampleDoc).
Proof.
  assert (H : (inject_Z (2 * margin) <= height a4)%Q)
    by (unfold Qle; simpl; lia).
  split; [exact H|].
  destruct (pagination_correct helveticaSplit a4 "11/2/2026" sampleReport H)
    as (Hpages & _ & _ & Habove).
  split; [|exact Habove].
  apply Hpages. vm_compute. reflexivity.
Defined.

(** C1, as stated, fails.  The footer is drawn at [pageHeight - 10],
    inside the bottom margin: so it is in the document of the report of
    [analyzeResume].  And headings are drawn without the page-break
    check: in the document of the report with every list empty, on the
    A4 page, "Hard Skills" is drawn at y = 290 and "Soft Skills" at
    y = 310, beyond the threshold 277.00008 (the second one below the
    page's lower edge at 297.00008). *)
Lemma pagination_literal_counterexample :
  In (footerItem a4) (curPage sampleDoc)
  /\ (threshold sampleDoc < it_y (footerItem a4))%Q
  /\ ~ Forall (fun it => (it_y it <= threshold sampleDoc)%Q)
              (allItems sampleDoc)
  /\ In (mkItem "Hard Skills" (inject_Z 20) (inject_Z 290) AlignLeft 14 teal)
        (curPage emptyDoc)
  /\ In (mkItem "Soft Skills" (inject_Z 20) (inject_Z 310) AlignLeft 14 teal)
        (curPage emptyDoc)
  /\ donePages emptyDoc = []
  /\ (threshold emptyDoc < inject_Z 290)%Q
  /\ (height (pageSize emptyDoc) < inject_Z 310)%Q
  /\ ~ Forall (fun it => (it_y it <= threshold emptyDoc)%Q)
              (allItems emptyDoc).
Proof.
  assert (Hfooter : In (footerItem a4) (allItems sampleDoc)).
  { vm_compute. repeat (first [left; reflexivity | right]). }
  assert (Hflt : (threshold sampleDoc < it_y (footerItem a4))%Q)
    by (vm_compute; reflexivity).
  assert (Hhard : In (mkItem "Hard Skills" (inject_Z 20) (inject_Z 290)
                             AlignLeft 14 teal) (allItems emptyDoc)).
  { vm_compute. repeat (first [left; reflexivity | right]). }
  assert (Hhlt : (threshold emptyDoc < inject_Z 290)%Q)
    by (vm_compute; reflexivity).
  split; [vm_compute; repeat (first [left; reflexivity | right])|].
  split; [exact Hflt|]. split.
  { intro Hall. rewrite Forall_forall in Hall.
    exact (Qlt_not_le _ _ Hflt (Hall _ Hfooter)). }
  split; [vm_compute; repeat (first [left; reflexivity | right])|].
  split; [vm_compute; repeat (first [left; reflexivity | right])|].
  split; [reflexivity|]. split; [exact Hhlt|].
  split; [vm_compute; reflexivity|].
  intro Hall. rewrite Forall_forall in Hall.
  exact (Qlt_not_le _ _ Hhlt (Hall _ Hhard)).
Qed.

(** C2.  Whatever the report, the headings of the rendered document are
    the eleven section titles in the fixed order, and the text of the
    document is the title block, then for each section of that order its
    heading followed by its bulleted wrapped lines (the keyword section
    being the two prefixed lines), then the footer.  The renderer reads
    the report by field name, so no ordering of the input fields enters. *)
Theorem section_order
        (splitTextToSize : Z -> string -> Q -> list string) (ps : PageSize)
        (today : string) (a : ResumeAnalysis) :
  map it_text
      (filter (fun it => isHeadingSty (sty it))
              (allItems (doc (render splitTextToSize ps today a))))
  = [ "Readability Analysis"; "Keyword Analysis"; "Experience Analysis";
      "Education Analysis"; "Impact Verbs Used";
      "Industry-Specific Keywords"; "Critical Improvements Needed";
      "Recommended Improvements"; "Optional Enhancements"; "Hard Skills";
      "Soft Skills" ]
  /\ map it_text (allItems (doc (render splitTextToSize ps today a)))
     = ([ titleText;
          ("File Name: " ++ fileName a)%string;
          ("Analysis Date: " ++ today)%string;
          ("Overall ATS Score: " ++ numberToString (score a) ++ "/100")%string ]
        ++ flat_map (fun p => fst p
                              :: map (append bullet)
                                     (wrapped splitTextToSize ps (snd p)))
                    (sectionOrder a)
        ++ [ footerText ])%list.
Proof.
  split.
  - rewrite texts_of_styles, filter_sty.
    fold (styles (doc (render splitTextToSize ps today a))).
    rewrite heading_styles. reflexivity.
  - rewrite texts_of_styles.
    fold (styles (doc (render splitTextToSize ps today a))).
    rewrite render_styles, !map_app, section_texts. reflexivity.
Qed.

(** C7.  The footer is the last item drawn on the page rendering ends
    on, after the sections and without adding a page; it is centred,
    10pt and grey, at [pageHeight - 10]; it is the only item of the
    document carrying the footer text, and no earlier page has it. *)
Theorem footer_once
        (splitTextToSize : Z -> string -> Q -> list string) (ps : PageSize)
        (today : string) (a : ResumeAnalysis) :
  curPage (doc (render splitTextToSize ps today a))
  = (curPage (doc (beforeFooter splitTextToSize ps today a))
     ++ [footerItem ps])%list
  /\ donePages (doc (render splitTextToSize ps today a))
     = donePages (doc (beforeFooter splitTextToSize ps today a))
  /\ footerItem ps
     = mkItem footerText (width ps / 2) (height ps - 10) AlignCenter 10 grey
  /\ filter (fun it => (it_text it =? footerText)%string)
            (allItems (doc (render splitTextToSize ps today a)))
     = [footerItem ps]
  /\ Forall (Forall (fun it => it_text it <> footerText))
            (donePages (doc (render splitTextToSize ps today a))).
Proof.
  pose proof (footer_unique splitTextToSize ps today a) as Huniq.
  rewrite render_doc. cbn [curPage donePages].
  split; [reflexivity|]. split; [reflexivity|]. split; [reflexivity|]. split.
  - rewrite <- render_doc, render_items, filter_app.
    change (fun it => (it_text it =? footerText)%string)
      with (fun it => isFooterText (sty it)).
    rewrite Huniq. reflexivity.
  - rewrite Forall_forall. intros page Hpage.
    rewrite Forall_forall. intros it Hit Htext.
    assert (Hin : In it (filter (fun it => isFooterText (sty it))
                           (allItems (doc (beforeFooter splitTextToSize ps
                                                        today a))))).
    { apply filter_In. split.
      - unfold allItems, allPages. apply in_concat. exists page.
        split; [apply in_or_app; now left|exact Hit].
      - unfold isFooterText, sty, styText. rewrite Htext.
        apply String.eqb_refl. }
    rewrite Huniq in Hin. exact Hin.
Qed.

(** C8.  When a report is present, one invocation hands the browser
    exactly one more file, the rendered document, under the name
    [detailed-resume-analysis.pdf]. *)
Theorem saved_under_fixed_name
        (splitTextToSize : Z -> string -> Q -> list string) (ps : PageSize)
        (today : string) (st : AppState) (saved : Downloads)
        (a : ResumeAnalysis) :
  analysis st = Some a ->
  handleDownloadReport splitTextToSize ps today st saved
  = (saved ++ [("detailed-resume-analysis.pdf",
                doc (render splitTextToSize ps today a))])%list.
Proof.
  intro Ha. unfold handleDownloadReport. now rewrite Ha.
Qed.

Lemma saved_under_fixed_name_witness :
  analysis sampleState = Some sampleReport
  /\ handleDownloadReport helveticaSplit a4 "11/2/2026" sampleState []
     = [("detailed-resume-analysis.pdf", sampleDoc)].
Proof.
  split; [reflexivity|].
  exact (saved_under_fixed_name helveticaSplit a4 "11/2/2026" sampleState []
                                sampleReport eq_refl).
Defined.

(** C9.  For any two uploads, whatever their names, contents and
    previews, the stored reports agree on every field other than
    [fileName] and [filePreview]; those two are the upload's name and
    preview, and the five scores are 85, 90, 85, 88 and 95. *)
Theorem analysis_is_constant
        (f1 f2 : File) (p1 p2 : string) (st1 st2 : AppState) :
  option_map fixedPart (analysis (analyzeResume f1 p1 st1))
  = option_map fixedPart (analysis (analyzeResume f2 p2 st2))
  /\ option_map fixedPart (analysis (analyzeResume f1 p1 st1))
     = Some (fixedPart sampleReport)
  /\ option_map fileName (analysis (analyzeResume f1 p1 st1))
     = Some (name f1)
  /\ option_map filePreview (analysis (analyzeResume f1 p1 st1)) = Some p1
  /\ option_map score (analysis (analyzeResume f1 p1 st1)) = Some 85
  /\ option_map (fun r => fb_score (readability (detailedAnalysis r)))
                (analysis (analyzeResume f1 p1 st1)) = Some 90
  /\ option_map (fun r => kw_score (keywords (detailedAnalysis r)))
                (analysis (analyzeResume f1 p1 st1)) = Some 85
  /\ option_map (fun r => fb_score (experience (detailedAnalysis r)))
                (analysis (analyzeResume f1 p1 st1)) = Some 88
  /\ option_map (fun r => fb_score (education (detailedAnalysis r)))
                (analysis (analyzeResume f1 p1 st1)) = Some 95.
Proof.
  split; [reflexivity|]. split; [reflexivity|]. split; [reflexivity|].
  split; [reflexivity|]. split; [reflexivity|]. split; [reflexivity|].
  split; [reflexivity|]. split; reflexivity.
Qed.

(** C10.  With no report stored, the download handler leaves the
    browser's downloads as they were: nothing is rendered or saved. *)
Theorem no_report_no_effect
        (splitTextToSize : Z -> string -> Q -> list string) (ps : PageSize)
        (today : string) (st : AppState) (saved : Downloads) :
  analysis st = None ->
  handleDownloadReport splitTextToSize ps today st saved = saved.
Proof.
  intro Hnone. unfold handleDownloadReport. now rewrite Hnone.
Qed.

Lemma no_report_no_effect_witness :
  analysis initialState = None
  /\ handleDownloadReport oneLine a4 "11/2/2026" initialState [] = [].
Proof.
  split; [reflexivity|].
  exact (no_report_no_effect oneLine a4 "11/2/2026" initialState []
                             eq_refl).
Defined.

Lemma secs_fit splitTextToSize ps secs : forall s,
  secsFit splitTextToSize ps (threshold (doc s)) (yPos s) secs ->
  numPages (doc (forEach secs
                   (fun p => addSection splitTextToSize ps (fst p) (snd p))
                   s))
  = numPages (doc s).
Proof.
  induction secs as [|[t c] secs IH]; intros s Hfit; [reflexivity|].
  cbn [secsFit snd] in Hfit. destruct Hfit as [Hhere Hrest].
  destruct (addSection_fit splitTextToSize ps t c s Hhere) as [Hn Hy].
  rewrite forEach_cons. cbn [fst snd]. rewrite IH; [exact Hn|].
  rewrite Hy, (threshold_pageSize _ (doc s)) by apply addSection_pageSize.
  exact Hrest.
Qed.

Lemma wrapped_length splitTextToSize ps content :
  (forall fs item w, splitTextToSize fs item w <> []) ->
  (List.length content
   <= List.length (wrapped splitTextToSize ps content))%nat.
Proof.
  intro Hne. induction content as [|item content IH]; [apply Nat.le_refl|].
  unfold wrapped in *. cbn [flat_map List.length]. rewrite length_app.
  specialize (Hne 12 item (printableWidth ps)).
  destruct (splitTextToSize 12 item (printableWidth ps)); [congruence|].
  cbn [List.length]. lia.
Qed.

(** C3, as amended.  For every report of the scenario's shape, on the
    A4 page and with a splitter that returns at least one line per
    string, the document has more than one page; the first text drawn is
    the title "Resume Analysis Report"; a line reads
    "Overall ATS Score: 85/100"; and the last item drawn, on the last
    page, is the centred footer, whose text contains "Resume Check". *)
Theorem scenario_document
        (splitTextToSize : Z -> string -> Q -> list string)
        (today : string) (a : ResumeAnalysis) :
  matchesScenario a ->
  (forall fs item w, splitTextToSize fs item w <> []) ->
  (1 < numPages (doc (render splitTextToSize a4 today a)))%nat
  /\ hd_error (map it_text
                   (allItems (doc (render splitTextToSize a4 today a))))
     = Some "Resume Analysis Report"
  /\ In "Overall ATS Score: 85/100"
        (map it_text (allItems (doc (render splitTextToSize a4 today a))))
  /\ (exists before,
        curPage (doc (render splitTextToSize a4 today a))
        = (before ++ [footerItem a4])%list)
  /\ it_align (footerItem a4) = AlignCenter
  /\ index 0 "Resume Check" (it_text (footerItem a4)) = Some 13%nat.
Proof.
  intros (Hscore & Hread & Hfound & Hmiss & Hhard & Hsoft & Hcrit & Hrec
          & Hopt) Hne.
  split; [|split; [|split; [|split; [|split]]]].
  - apply overflow_adds_page; [vm_compute; discriminate|].
    change (capacity a4) with 25.
    pose proof (fun c => wrapped_length splitTextToSize a4 c Hne) as Hlen.
    unfold reportLines, sectionOrder. cbn [flat_map snd].
    rewrite !length_app.
    pose proof (Hlen (feedback (readability (detailedAnalysis a)))).
    pose proof (Hlen (critical (suggestions a))).
    pose proof (Hlen (recommended (suggestions a))).
    pose proof (Hlen (optional (suggestions a))).
    pose proof (Hlen (hardSkills a)).
    pose proof (Hlen (softSkills a)).
    match goal with
    | |- context [wrapped splitTextToSize a4 [?x; ?y]] =>
        pose proof (Hlen [x; y]) as Hkw
    end.
    cbn [List.length] in Hkw. lia.
  - rewrite texts_of_styles.
    fold (styles (doc (render splitTextToSize a4 today a))).
    rewrite render_styles. reflexivity.
  - rewrite texts_of_styles.
    fold (styles (doc (render splitTextToSize a4 today a))).
    rewrite render_styles, map_app. apply in_or_app. left.
    unfold headerStyles. rewrite Hscore. cbn. tauto.
  - rewrite render_doc. cbn [curPage]. eexists. reflexivity.
  - reflexivity.
  - reflexivity.
Qed.

Lemma scenario_document_witness :
  matchesScenario sampleReport
  /\ (1 < numPages sampleDoc)%nat
  /\ In "Overall ATS Score: 85/100" (map it_text (allItems sampleDoc)).
Proof.
  assert (Hs : matchesScenario sampleReport) by (repeat split).
  destruct (scenario_document helveticaSplit "11/2/2026" sampleReport Hs
                              helveticaSplit_nonempty)
    as (Hpages & _ & Hline & _).
  split; [exact Hs|]. split; [exact Hpages|exact Hline].
Defined.

(** C3, as stated, fails: the report [analyzeResume] produces has the
    scenario's shape, and on the A4 page its 47 strings wrap to 48
    lines and its document has three pages, not one. *)
Lemma scenario_one_page_counterexample :
  matchesScenario sampleReport
  /\ numPages sampleDoc = 3%nat
  /\ numPages sampleDoc <> 1%nat.
Proof.
  split; [repeat split|]. split; [vm_compute; reflexivity|].
  vm_compute. discriminate.
Qed.

(** C5, as amended.  For every report whose list fields are all empty,
    on a page at least 150 high and with the two short keyword strings
    each wrapping to a single line: the document has one page; its text
    is the title block, every section heading in order, and the footer,
    with no bulleted line other than the two lines the keyword section
    always emits; and a section with empty content draws its heading,
    moves the cursor down by exactly two line heights and leaves the
    pages as they were. *)
Theorem empty_sections
        (splitTextToSize : Z -> string -> Q -> list string) (ps : PageSize)
        (today : string) (a : ResumeAnalysis) :
  allListsEmpty a ->
  (inject_Z 150 <= height ps)%Q ->
  splitTextToSize 12 "Found Keywords: " (printableWidth ps)
  = ["Found Keywords: "] ->
  splitTextToSize 12 "Missing Important Keywords: " (printableWidth ps)
  = ["Missing Important Keywords: "] ->
  numPages (doc (render splitTextToSize ps today a)) = 1%nat
  /\ map it_text (allItems (doc (render splitTextToSize ps today a)))
     = [ "Resume Analysis Report";
         ("File Name: " ++ fileName a)%string;
         ("Analysis Date: " ++ today)%string;
         ("Overall ATS Score: " ++ numberToString (score a) ++ "/100")%string;
         "Readability Analysis";
         "Keyword Analysis";
         (bullet ++ "Found Keywords: ")%string;
         (bullet ++ "Missing Important Keywords: ")%string;
         "Experience Analysis"; "Education Analysis"; "Impact Verbs Used";
         "Industry-Specific Keywords"; "Critical Improvements Needed";
         "Recommended Improvements"; "Optional Enhancements"; "Hard Skills";
         "Soft Skills";
         "Generated by Resume Check - Comprehensive ATS Analysis Report" ]
  /\ (forall title s,
        yPos (addSection splitTextToSize ps title [] s)
        = yPos s + lineHeight + lineHeight
        /\ donePages (doc (addSection splitTextToSize ps title [] s))
           = donePages (doc s)
        /\ curPage (doc (addSection splitTextToSize ps title [] s))
           = (curPage (doc s)
              ++ [mkItem title (inject_Z margin) (inject_Z (yPos s))
                         AlignLeft 14 teal])%list).
Proof.
  intros Hempty Hps Hfound Hmissing.
  assert (Hsecs : sectionOrder a
                  = [ ("Readability Analysis", []);
                      ("Keyword Analysis",
                       ["Found Keywords: "; "Missing Important Keywords: "]);
                      ("Experience Analysis", []); ("Education Analysis", []);
                      ("Impact Verbs Used", []);
                      ("Industry-Specific Keywords", []);
                      ("Critical Improvements Needed", []);
                      ("Recommended Improvements", []);
                      ("Optional Enhancements", []); ("Hard Skills", []);
                      ("Soft Skills", []) ]).
  { destruct Hempty as (H1 & H2 & H3 & H4 & H5 & H6 & H7 & H8 & H9 & H10
                        & H11 & H12).
    unfold sectionOrder.
    rewrite H1, H2, H3, H4, H5, H6, H7, H8, H9, H10, H11, H12.
    reflexivity. }
  assert (Hkw : wrapped splitTextToSize ps
                        ["Found Keywords: "; "Missing Important Keywords: "]
                = ["Found Keywords: "; "Missing Important Keywords: "]).
  { unfold wrapped. cbn [flat_map]. rewrite Hfound, Hmissing. reflexivity. }
  split; [|split].
  - rewrite render_numPages. unfold beforeFooter. rewrite Hsecs.
    rewrite secs_fit; [reflexivity|].
    rewrite afterHeader_yPos. unfold threshold.
    rewrite afterHeader_pageSize. cbn [secsFit snd]. rewrite Hkw.
    unfold wrapped. cbn [flat_map List.length Z.of_nat].
    repeat split; try congruence.
    intros _. unfold lineHeight, margin.
    change (inject_Z (90 + 2 * 10 + 10 * 0 + 10 * Z.pos (Pos.of_succ_nat 1)))
      with (130 # 1)%Q.
    change (inject_Z 150) with (150 # 1)%Q in Hps.
    change (inject_Z 20) with (20 # 1)%Q. lra.
  - rewrite texts_of_styles.
    fold (styles (doc (render splitTextToSize ps today a))).
    rewrite render_styles, Hsecs. cbn [flat_map]. unfold sectionStyles.
    cbn [fst snd]. rewrite Hkw. reflexivity.
  - intros title s. split; [reflexivity|]. split; reflexivity.
Qed.

Lemma empty_sections_witness :
  allListsEmpty emptyReport
  /\ (inject_Z 150 <= height a4)%Q
  /\ numPages emptyDoc = 1%nat.
Proof.
  assert (He : allListsEmpty emptyReport) by (repeat split).
  assert (Hps : (inject_Z 150 <= height a4)%Q) by (unfold Qle; simpl; lia).
  destruct (empty_sections oneLine a4 "11/2/2026" emptyReport He Hps
                           eq_refl eq_refl) as (Hone & _).
  split; [exact He|]. split; [exact Hps|exact Hone].
Defined.

(** C5, as stated, fails: the keyword section flattens its two lists
    into two prefixed strings whatever their length, so the document of
    a report with every list empty still carries two bulleted lines. *)
Lemma empty_report_counterexample :
  allListsEmpty emptyReport
  /\ map it_text (filter isContentLine (allItems emptyDoc))
     = [ (bullet ++ "Found Keywords: ")%string;
         (bullet ++ "Missing Important Keywords: ")%string ]
  /\ filter isContentLine (allItems emptyDoc) <> [].
Proof.
  split; [repeat split|]. split; [vm_compute; reflexivity|].
  vm_compute. discriminate.
Qed.

(** ** Leaving the timestamp out commutes with rendering *)

Section Timestamp.

Variable splitTextToSize : Z -> string -> Q -> list string.
Variable ps : PageSize.

Lemma mask_text t x y al d :
  startsWith "Analysis Date: " t = false ->
  withoutTimestamp (text t x y al d) = text t x y al (withoutTimestamp d).
Proof.
  intro Ht. unfold withoutTimestamp, text.
  cbn [pageSize fontSize textColor donePages curPage].
  rewrite filter_app. unfold keepItem, isTimestamp.
  cbn [filter it_text]. now rewrite Ht.
Qed.

Lemma mask_addPage d :
  withoutTimestamp (addPage d) = addPage (withoutTimestamp d).
Proof.
  unfold withoutTimestamp, addPage.
  cbn [pageSize fontSize textColor donePages curPage].
  now rewrite map_app.
Qed.

Lemma mask_drawLine line s :
  maskLayout (drawLine line s) = drawLine line (maskLayout s).
Proof.
  unfold drawLine, maskLayout. cbn [doc yPos].
  change (threshold (withoutTimestamp (doc s))) with (threshold (doc s)).
  destruct (Qgtb _ _); cbn [doc yPos];
    rewrite mask_text by reflexivity; [rewrite mask_addPage|]; reflexivity.
Qed.

Lemma mask_lines lines : forall s,
  maskLayout (forEach lines drawLine s)
  = forEach lines drawLine (maskLayout s).
Proof.
  induction lines as [|l lines IH]; intro s; [reflexivity|].
  now rewrite !forEach_cons, IH, mask_drawLine.
Qed.

Lemma mask_addSection title content s :
  startsWith "Analysis Date: " title = false ->
  maskLayout (addSection splitTextToSize ps title content s)
  = addSection splitTextToSize ps title content (maskLayout s).
Proof.
  intro Ht. rewrite !addSection_eq.
  change (maskLayout (advance lineHeight ?x))
    with (advance lineHeight (maskLayout x)).
  rewrite mask_lines. f_equal. f_equal.
  unfold beginSection, seq, onDoc, textAt, advance, maskLayout.
  cbn [doc yPos]. f_equal.
  change (withoutTimestamp (setTextColor 0 0 0 (setFontSize 12 ?d)))
    with (setTextColor 0 0 0 (setFontSize 12 (withoutTimestamp d))).
  now rewrite mask_text by exact Ht.
Qed.

Lemma mask_sections secs : forall s,
  Forall (fun p => startsWith "Analysis Date: " (fst p) = false) secs ->
  maskLayout (forEach secs
                (fun p => addSection splitTextToSize ps (fst p) (snd p)) s)
  = forEach secs
      (fun p => addSection splitTextToSize ps (fst p) (snd p))
      (maskLayout s).
Proof.
  induction secs as [|p secs IH]; intros s Hsecs; [reflexivity|].
  inversion Hsecs as [|? ? Hp Hrest]; subst.
  now rewrite !forEach_cons, IH, mask_addSection.
Qed.

Lemma mask_footer s :
  maskLayout (footer ps s) = footer ps (maskLayout s).
Proof.
  unfold footer, seq, onDoc, maskLayout. cbn [doc yPos]. f_equal.
  now rewrite mask_text by reflexivity.
Qed.

Lemma mask_render today a :
  maskLayout (render splitTextToSize ps today a)
  = footer ps
      (forEach (sectionOrder a)
         (fun p => addSection splitTextToSize ps (fst p) (snd p))
         (maskLayout (afterHeader ps today a))).
Proof.
  rewrite render_eq, mask_footer, mask_sections; [reflexivity|].
  unfold sectionOrder. repeat constructor.
Qed.

Lemma mask_afterHeader d1 d2 a :
  maskLayout (afterHeader ps d1 a) = maskLayout (afterHeader ps d2 a).
Proof. reflexivity. Qed.

End Timestamp.

(** C4.  Two invocations on the same stored report, whatever the two
    dates read from the clock and whatever was saved before, hand the
    browser two documents, each the rendering of the report alone: the
    second does not depend on the first.  With the timestamp line left
    out the two documents are equal (pages, texts, positions and
    styles), and the comparison leaves out nothing else: the text of the
    masked document is the whole report but for that line. *)
Theorem render_deterministic
        (splitTextToSize : Z -> string -> Q -> list string) (ps : PageSize)
        (d1 d2 : string) (st : AppState) (saved : Downloads)
        (a : ResumeAnalysis) :
  analysis st = Some a ->
  handleDownloadReport splitTextToSize ps d2 st
    (handleDownloadReport splitTextToSize ps d1 st saved)
  = (saved ++ [ (saveName, doc (render splitTextToSize ps d1 a));
                (saveName, doc (render splitTextToSize ps d2 a)) ])%list
  /\ withoutTimestamp (doc (render splitTextToSize ps d1 a))
     = withoutTimestamp (doc (render splitTextToSize ps d2 a))
  /\ map it_text
         (allItems (withoutTimestamp (doc (render splitTextToSize ps d1 a))))
     = ([ titleText;
          ("File Name: " ++ fileName a)%string;
          ("Overall ATS Score: " ++ numberToString (score a) ++ "/100")%string ]
        ++ flat_map (fun p => fst p
                              :: map (append bullet)
                                     (wrapped splitTextToSize ps (snd p)))
                    (sectionOrder a)
        ++ [ footerText ])%list.
Proof.
  intro Ha. split; [|split].
  - unfold handleDownloadReport. rewrite Ha, <- app_assoc. reflexivity.
  - change (doc (maskLayout (render splitTextToSize ps d1 a))
            = doc (maskLayout (render splitTextToSize ps d2 a))).
    now rewrite !mask_render, (mask_afterHeader ps d1 d2).
  - change (withoutTimestamp (doc (render splitTextToSize ps d1 a)))
      with (doc (maskLayout (render splitTextToSize ps d1 a))).
    rewrite mask_render, texts_of_styles.
    match goal with
    | |- context [allItems (doc (footer ps ?s))] =>
        assert (Hf : allItems (doc (footer ps s))
                     = (allItems (doc s)
                        ++ [mkItem footerText (width ps / 2)
                                   (height (pageSize (doc s)) - 10)
                                   AlignCenter 10 grey])%list)
    end.
    { unfold footer, seq, onDoc. cbn [doc]. now rewrite allItems_text. }
    rewrite Hf, map_app.
    match goal with
    | |- context [map sty (allItems (doc ?s))] =>
        change (map sty (allItems (doc s))) with (styles (doc s))
    end.
    rewrite secs_styles, !map_app, section_texts. reflexivity.
Qed.

Lemma render_deterministic_witness :
  analysis sampleState = Some sampleReport
  /\ withoutTimestamp (doc (render oneLine a4 "11/2/2026" sampleReport))
     = withoutTimestamp (doc (render oneLine a4 "11/3/2026" sampleReport))
  /\ doc (render oneLine a4 "11/2/2026" sampleReport)
     <> doc (render oneLine a4 "11/3/2026" sampleReport).
Proof.
  split; [reflexivity|].
  destruct (render_deterministic oneLine a4 "11/2/2026" "11/3/2026"
                                 sampleState [] sampleReport eq_refl)
    as (_ & Hsame & _).
  split; [exact Hsame|].
  intro Heq. apply (f_equal (fun d => hd [] (allPages d))) in Heq.
  apply (f_equal (fun p => map it_text (firstn 3 p))) in Heq.
  vm_compute in Heq. discriminate Heq.
Defined.

(** ** Word order under wrapping *)



(** ** Lines placed on the pages *)


(** ** The stand-in measure *)









(** * Further properties of the renderer *)

(** ** Invariants carried through the sections *)

Section LayoutInvariant.

Variable splitTextToSize : Z -> string -> Q -> list string.
Variable ps : PageSize.
Variable P : Layout -> Prop.

Hypothesis P_line : forall l s,
  fontSize (doc s) = 12 -> textColor (doc s) = black ->
  P s -> P (drawLine l s).
Hypothesis P_begin : forall t s, P s -> P (beginSection t s).
Hypothesis P_advance : forall s, P s -> P (advance lineHeight s).

Lemma lines_invariant lines : forall s,
  fontSize (doc s) = 12 -> textColor (doc s) = black ->
  P s -> P (forEach lines drawLine s).
Proof.
  induction lines as [|l lines IH]; intros s Hf Hc HP; [exact HP|].
  rewrite forEach_cons. apply IH.
  - now rewrite drawLine_fontSize.
  - now rewrite drawLine_textColor.
  - now apply P_line.
Qed.

Lemma addSection_invariant title content s :
  P s -> P (addSection splitTextToSize ps title content s).
Proof.
  intro HP. rewrite addSection_eq. apply P_advance.
  apply lines_invariant; [reflexivity|reflexivity|]. now apply P_begin.
Qed.

Lemma secs_invariant secs : forall s,
  P s ->
  P (forEach secs
       (fun p => addSection splitTextToSize ps (fst p) (snd p)) s).
Proof.
  induction secs as [|[t c] secs IH]; intros s HP; [exact HP|].
  rewrite forEach_cons. apply IH. now apply addSection_invariant.
Qed.

End LayoutInvariant.

(** ** How pages begin *)

Lemma pagesGood_snoc_item pages p it :
  pagesGood (pages ++ [p])%list -> pagesGood (pages ++ [p ++ [it]])%list.
Proof.
  intros (first & rest & Heq & Hhd & Hrest).
  destruct pages as [|q pages].
  - cbn [app] in *. injection Heq as <- <-.
    exists (p ++ [it])%list, []. split; [reflexivity|]. split; [|constructor].
    destruct p; [discriminate Hhd|exact Hhd].
  - cbn [app] in *. injection Heq as <- <-.
    exists q, (pages ++ [p ++ [it]])%list. split; [reflexivity|].
    split; [exact Hhd|].
    apply Forall_app in Hrest. destruct Hrest as [Hpages Hp].
    apply Forall_app. split; [exact Hpages|].
    inversion Hp as [|? ? (l & tl & ->) _]; subst.
    constructor; [|constructor]. exists l, (tl ++ [it])%list. reflexivity.
Qed.

Lemma pagesGood_new_page pages p :
  pagesGood pages -> Opened p -> pagesGood (pages ++ [p])%list.
Proof.
  intros (first & rest & -> & Hhd & Hrest) Hp.
  exists first, (rest ++ [p])%list. split; [reflexivity|].
  split; [exact Hhd|]. apply Forall_app. split; [exact Hrest|].
  constructor; [exact Hp|constructor].
Qed.

Lemma pagesGood_drawLine l s :
  fontSize (doc s) = 12 -> textColor (doc s) = black ->
  pagesGood (allPages (doc s)) -> pagesGood (allPages (doc (drawLine l s))).
Proof.
  intros Hf Hc Hgood. unfold drawLine.
  destruct (Qgtb _ _); cbn [doc yPos]; unfold allPages, text, addPage;
    cbn [donePages curPage fontSize textColor]; rewrite Hf, Hc.
  - apply pagesGood_new_page; [exact Hgood|]. exists l, []. reflexivity.
  - now apply pagesGood_snoc_item.
Qed.

Lemma pagesGood_beginSection t s :
  pagesGood (allPages (doc s)) ->
  pagesGood (allPages (doc (beginSection t s))).
Proof. intro Hgood. now apply pagesGood_snoc_item. Qed.

(** X1.  No page of the document is blank: the first page begins with the
    title, and every later page begins with a bulleted content line
    drawn at the top margin, so a section heading never opens a page. *)
Theorem pages_begin_with_content
        (splitTextToSize : Z -> string -> Q -> list string) (ps : PageSize)
        (today : string) (a : ResumeAnalysis) :
  (exists first rest,
     allPages (doc (render splitTextToSize ps today a)) = first :: rest
     /\ hd_error first = Some titleItem
     /\ Forall Opened rest)
  /\ Forall (fun p => p <> [])
            (allPages (doc (render splitTextToSize ps today a))).
Proof.
  assert (Hgood : pagesGood
                    (allPages (doc (render splitTextToSize ps today a)))).
  { rewrite render_doc. unfold allPages. cbn [donePages curPage].
    apply pagesGood_snoc_item.
    apply (secs_invariant splitTextToSize ps
             (fun s => pagesGood (allPages (doc s)))).
    - exact pagesGood_drawLine.
    - exact pagesGood_beginSection.
    - intros s Hs. exact Hs.
    - exists (curPage (doc (afterHeader ps today a))), [].
      split; [reflexivity|]. split; [reflexivity|constructor]. }
  split; [exact Hgood|].
  destruct Hgood as (first & rest & -> & Hhd & Hrest).
  constructor.
  - destruct first; [discriminate Hhd|discriminate].
  - eapply Forall_impl; [|exact Hrest].
    intros p (l & tl & ->). discriminate.
Qed.

(** ** Vertical order on a page *)

Lemma Spaced_snoc p x :
  Spaced p -> Forall (fun a => lineApart a x) p -> Spaced (p ++ [x])%list.
Proof.
  induction p as [|it p IH]; intros Hsp Hall.
  - cbn. split; constructor.
  - cbn [app Spaced] in *. destruct Hsp as [Hit Hp].
    inversion Hall as [|? ? Hx Hrest]; subst. split.
    + apply Forall_app. split; [exact Hit|]. constructor; [exact Hx|constructor].
    + now apply IH.
Qed.

Lemma cursor_le (q : Q) (y y' : Z) :
  (q <= inject_Z y)%Q -> y <= y' -> (q <= inject_Z y')%Q.
Proof.
  intros Hq Hy. eapply Qle_trans; [exact Hq|]. now rewrite <- Zle_Qle.
Qed.

Lemma cursor_step (y : Z) :
  (inject_Z y + inject_Z lineHeight <= inject_Z (y + lineHeight))%Q.
Proof. rewrite <- inject_Z_plus. apply Qle_refl. Qed.

(** Drawing at the cursor and moving it down one line height. *)
Lemma wellSpaced_draw t x al n (s : Layout) :
  lineHeight <= n ->
  wellSpaced s ->
  wellSpaced (mkLayout (text t x (inject_Z (yPos s)) al (doc s))
                       (yPos s + n)).
Proof.
  intros Hn (Hdone & Hcur & Hbelow & Htop & Hy).
  unfold wellSpaced. cbn [doc yPos]. rewrite allItems_text.
  unfold text at 1 2 3. cbn [donePages curPage].
  split; [exact Hdone|]. split; [|split; [|split]].
  - apply Spaced_snoc; [exact Hcur|]. exact Hbelow.
  - apply Forall_app. split.
    + eapply Forall_impl; [|exact Hbelow].
      intros it Hit. apply (cursor_le _ _ _ Hit). unfold lineHeight in *. lia.
    + constructor; [|constructor]. cbn [it_y].
      eapply Qle_trans; [apply cursor_step|].
      rewrite <- Zle_Qle. lia.
  - apply Forall_app. split; [exact Htop|].
    constructor; [|constructor]. cbn [it_y]. now rewrite <- Zle_Qle.
  - unfold lineHeight in *. lia.
Qed.

Lemma wellSpaced_advance s : wellSpaced s -> wellSpaced (advance lineHeight s).
Proof.
  intros (Hdone & Hcur & Hbelow & Htop & Hy).
  unfold wellSpaced, advance. cbn [doc yPos].
  split; [exact Hdone|]. split; [exact Hcur|]. split; [|split].
  - eapply Forall_impl; [|exact Hbelow].
    intros it Hit. apply (cursor_le _ _ _ Hit). unfold lineHeight. lia.
  - exact Htop.
  - unfold lineHeight. lia.
Qed.

Lemma wellSpaced_newPage s :
  wellSpaced s -> wellSpaced (mkLayout (addPage (doc s)) margin).
Proof.
  intros (Hdone & Hcur & Hbelow & Htop & Hy).
  unfold wellSpaced. cbn [doc yPos]. rewrite allItems_addPage.
  unfold addPage. cbn [donePages curPage].
  split; [|split; [exact I|split; [constructor|split; [exact Htop|lia]]]].
  apply Forall_app. split; [exact Hdone|]. constructor; [exact Hcur|constructor].
Qed.

Lemma wellSpaced_drawLine l s : wellSpaced s -> wellSpaced (drawLine l s).
Proof.
  intro Hs. unfold drawLine. destruct (Qgtb _ _).
  - apply (wellSpaced_draw _ _ _ lineHeight
             (mkLayout (addPage (doc s)) margin)); [lia|].
    now apply wellSpaced_newPage.
  - apply wellSpaced_draw; [lia|exact Hs].
Qed.

Lemma wellSpaced_beginSection t s :
  wellSpaced s -> wellSpaced (beginSection t s).
Proof.
  intro Hs.
  pose proof (wellSpaced_draw t (inject_Z margin) AlignLeft lineHeight
                (mkLayout (setTextColor 0 128 128 (setFontSize 14 (doc s)))
                          (yPos s))) as Hdraw.
  destruct Hdraw as (Hdone & Hcur & Hbelow & Htop & Hy); [lia|exact Hs|].
  unfold wellSpaced. split; [exact Hdone|]. split; [exact Hcur|].
  split; [exact Hbelow|]. split; [exact Htop|exact Hy].
Qed.

Lemma wellSpaced_afterHeader ps today a :
  wellSpaced (afterHeader ps today a).
Proof.
  unfold wellSpaced. cbn.
  repeat match goal with
         | |- _ /\ _ => split
         | |- Forall _ _ => constructor
         | |- True => exact I
         end;
    try (unfold lineApart, Qle; cbn; lia); try (unfold Qle; cbn; lia);
    try (unfold margin; lia).
Qed.

(** X2.  On every page, the items drawn before the footer stand in drawing
    order from top to bottom, each at least one line height below the
    one before, and none above the top margin: the renderer never
    prints one of them over another. *)
Theorem lines_never_overprint
        (splitTextToSize : Z -> string -> Q -> list string) (ps : PageSize)
        (today : string) (a : ResumeAnalysis) :
  Forall Spaced (donePages (doc (render splitTextToSize ps today a)))
  /\ (exists body,
        curPage (doc (render splitTextToSize ps today a))
        = (body ++ [footerItem ps])%list
        /\ Spaced body)
  /\ (exists others,
        allItems (doc (render splitTextToSize ps today a))
        = (others ++ [footerItem ps])%list
        /\ Forall (fun it => (inject_Z margin <= it_y it)%Q) others).
Proof.
  assert (Hs : wellSpaced (beforeFooter splitTextToSize ps today a)).
  { apply (secs_invariant splitTextToSize ps wellSpaced).
    - intros l s _ _. apply wellSpaced_drawLine.
    - exact wellSpaced_beginSection.
    - exact wellSpaced_advance.
    - apply wellSpaced_afterHeader. }
  destruct Hs as (Hdone & Hcur & _ & Htop & _).
  split; [|split].
  - rewrite render_doc. exact Hdone.
  - rewrite render_doc. cbn [curPage]. eexists. split; [reflexivity|exact Hcur].
  - rewrite render_items. eexists. split; [reflexivity|exact Htop].
Qed.

(** ** When the report fits one page *)

Lemma secs_no_break_fit splitTextToSize ps secs : forall s,
  numPages (doc (forEach secs
                   (fun p => addSection splitTextToSize ps (fst p) (snd p))
                   s))
  = numPages (doc s) ->
  secsFit splitTextToSize ps (threshold (doc s)) (yPos s) secs.
Proof.
  induction secs as [|[t c] secs IH]; intros s Hn; [exact I|].
  rewrite forEach_cons in Hn. cbn [fst snd] in Hn.
  pose proof (secs_numPages_mono splitTextToSize ps secs
                (addSection splitTextToSize ps t c s)) as Hmono.
  pose proof (addSection_numPages_mono splitTextToSize ps t c s) as Hstep.
  destruct (addSection_no_break splitTextToSize ps t c s) as [Hy Hlast];
    [lia|].
  cbn [secsFit snd]. split; [exact Hlast|].
  rewrite <- Hy.
  rewrite <- (threshold_pageSize
                (doc (addSection splitTextToSize ps t c s)) (doc s))
    by apply addSection_pageSize.
  apply IH. lia.
Qed.

(** X3.  The document has exactly one page if and only if, walking the
    sections from the cursor position 90 the title block leaves, the
    last line of every section that has lines lands at or above the
    bottom-margin threshold. *)
Theorem single_page_iff
        (splitTextToSize : Z -> string -> Q -> list string) (ps : PageSize)
        (today : string) (a : ResumeAnalysis) :
  numPages (doc (render splitTextToSize ps today a)) = 1%nat
  <-> secsFit splitTextToSize ps (height ps - inject_Z margin) 90
              (sectionOrder a).
Proof.
  rewrite render_numPages. unfold beforeFooter. split.
  - intro Hone.
    change (height ps - inject_Z margin)%Q
      with (threshold (doc (afterHeader ps today a))).
    change 90 with (yPos (afterHeader ps today a)).
    apply secs_no_break_fit. exact Hone.
  - intro Hfit. rewrite secs_fit; [reflexivity|exact Hfit].
Qed.

Lemma single_page_iff_witness :
  numPages emptyDoc = 1%nat
  /\ secsFit oneLine a4 (height a4 - inject_Z margin) 90
             (sectionOrder emptyReport).
Proof.
  assert (Hone : numPages emptyDoc = 1%nat) by (vm_compute; reflexivity).
  split; [exact Hone|].
  exact (proj1 (single_page_iff oneLine a4 "11/2/2026" emptyReport) Hone).
Defined.

(** X4.  The first content line is drawn no higher than y = 100, so a
    report with [n >= 1] wrapped lines needs a second page as soon as
    [90 + 10 n] passes the bottom-margin threshold; on the A4 page that
    is from 19 lines on. *)
Theorem first_page_overflow
        (splitTextToSize : Z -> string -> Q -> list string) (ps : PageSize)
        (today : string) (a : ResumeAnalysis) :
  reportLines splitTextToSize ps a <> [] ->
  (height ps - inject_Z margin
   < inject_Z (90 + lineHeight
                    * Z.of_nat (List.length
                                  (reportLines splitTextToSize ps a))))%Q ->
  (1 < numPages (doc (render splitTextToSize ps today a)))%nat.
Proof.
  intros Hne Hover. rewrite render_numPages. unfold beforeFooter.
  pose proof (secs_numPages_mono splitTextToSize ps (sectionOrder a)
                (afterHeader ps today a)) as Hmono.
  rewrite afterHeader_numPages in Hmono.
  destruct (Nat.eq_dec
              (numPages
                 (doc (forEach (sectionOrder a)
                         (fun p => addSection splitTextToSize ps
                                              (fst p) (snd p))
                         (afterHeader ps today a)))) 1)
    as [Hone|]; [exfalso|lia].
  pose proof (secs_no_break splitTextToSize ps (sectionOrder a)
                (afterHeader ps today a) Hone Hne) as Hlast.
  exact (Qlt_not_le _ _ Hover Hlast).
Qed.

Lemma first_page_overflow_witness :
  (19 <= List.length (reportLines helveticaSplit a4 sampleReport))%nat
  /\ (1 < numPages sampleDoc)%nat.
Proof.
  split; [vm_compute; lia|].
  apply (first_page_overflow helveticaSplit a4 "11/2/2026" sampleReport).
  - vm_compute. discriminate.
  - vm_compute. reflexivity.
Defined.

(** ** Position and style of every item *)

(** X5.  Item by item and in drawing order, the document is: the title 24pt
    teal, the file and date lines 12pt black and the score line 16pt
    black, all at the left margin; then per section its heading 14pt
    teal at the left margin followed by its bulleted lines 12pt black at
    the indent [margin + 5]; then the footer 10pt grey, the one centred
    item, at half the page width. *)
Theorem document_styles
        (splitTextToSize : Z -> string -> Q -> list string) (ps : PageSize)
        (today : string) (a : ResumeAnalysis) :
  map sty (allItems (doc (render splitTextToSize ps today a)))
  = ([ (titleText, inject_Z margin, AlignLeft, 24, teal);
       (("File Name: " ++ fileName a)%string, inject_Z margin, AlignLeft,
        12, black);
       (("Analysis Date: " ++ today)%string, inject_Z margin, AlignLeft,
        12, black);
       (("Overall ATS Score: " ++ numberToString (score a) ++ "/100")%string,
        inject_Z margin, AlignLeft, 16, black) ]
     ++ flat_map
          (fun p =>
             (fst p, inject_Z margin, AlignLeft, 14, teal)
             :: map (fun l => ((bullet ++ l)%string, inject_Z (margin + 5),
                               AlignLeft, 12, black))
                    (wrapped splitTextToSize ps (snd p)))
          (sectionOrder a)
     ++ [ (footerText, (width ps / 2)%Q, AlignCenter, 10, grey) ])%list.
Proof.
  fold (styles (doc (render splitTextToSize ps today a))).
  rewrite render_styles. reflexivity.
Qed.

(** ** What the renderer reads *)

(** X6.  Two reports that agree on the score, the file name and the twelve
    string lists are rendered alike: the file preview, the four
    sub-scores, [measurableAchievements] and [skillsEfficiencyRatio]
    never reach the document. *)
Theorem render_ignores_hidden_fields
        (splitTextToSize : Z -> string -> Q -> list string) (ps : PageSize)
        (today : string) (a a' : ResumeAnalysis) :
  drawnFields a = drawnFields a' ->
  render splitTextToSize ps today a = render splitTextToSize ps today a'.
Proof.
  destruct a as [sc fn fp [[rs rf] [ks kf km] [es ef] [ds df]] ss hs
                 [cr re op] [ma se iv ik]].
  destruct a' as [sc' fn' fp' [[rs' rf'] [ks' kf' km'] [es' ef'] [ds' df']]
                  ss' hs' [cr' re' op'] [ma' se' iv' ik']].
  unfold drawnFields. cbn. intro H. injection H as -> -> -> -> -> -> -> -> -> -> -> -> -> ->.
  reflexivity.
Qed.

Lemma render_ignores_hidden_fields_witness :
  drawnFields sampleReport = drawnFields sampleReportOtherHidden
  /\ filePreview sampleReport <> filePreview sampleReportOtherHidden
  /\ render oneLine a4 "11/2/2026" sampleReport
     = render oneLine a4 "11/2/2026" sampleReportOtherHidden.
Proof.
  split; [reflexivity|]. split; [discriminate|].
  exact (render_ignores_hidden_fields oneLine a4 "11/2/2026" sampleReport
                                      sampleReportOtherHidden eq_refl).
Defined.

(** ** How many pages *)

Lemma lines_numPages_le lines : forall s,
  (numPages (doc (forEach lines drawLine s))
   <= numPages (doc s) + List.length lines)%nat.
Proof.
  induction lines as [|l lines IH]; intro s; [cbn; lia|].
  rewrite forEach_cons. specialize (IH (drawLine l s)).
  rewrite drawLine_numPages in IH. cbn [List.length].
  destruct (Qgtb _ _); lia.
Qed.

Lemma secs_numPages_le splitTextToSize ps secs : forall s,
  (numPages (doc (forEach secs
                    (fun p => addSection splitTextToSize ps (fst p) (snd p))
                    s))
   <= numPages (doc s)
      + List.length
          (flat_map (fun p => wrapped splitTextToSize ps (snd p)) secs))%nat.
Proof.
  induction secs as [|[t c] secs IH]; intro s; [cbn; lia|].
  rewrite forEach_cons. cbn [fst snd flat_map]. rewrite length_app.
  specialize (IH (addSection splitTextToSize ps t c s)).
  assert (Hsec : (numPages (doc (addSection splitTextToSize ps t c s))
                  <= numPages (doc s)
                     + List.length (wrapped splitTextToSize ps c))%nat).
  { rewrite addSection_eq. cbn [advance doc].
    rewrite <- (beginSection_numPages t s). apply lines_numPages_le. }
  lia.
Qed.

(** X7.  A page is added only for a content line, so the document never has
    more pages than one plus its number of wrapped content lines. *)
Theorem page_count_bound
        (splitTextToSize : Z -> string -> Q -> list string) (ps : PageSize)
        (today : string) (a : ResumeAnalysis) :
  (numPages (doc (render splitTextToSize ps today a))
   <= 1 + List.length (reportLines splitTextToSize ps a))%nat.
Proof.
  rewrite render_numPages. unfold beforeFooter, reportLines.
  pose proof (secs_numPages_le splitTextToSize ps (sectionOrder a)
                (afterHeader ps today a)) as Hle.
  now rewrite afterHeader_numPages in Hle.
Qed.


(** * Properties of the event handlers *)

Section AppFacts.

Variable splitTextToSize : Z -> string -> Q -> list string.
Variable ps : PageSize.
Variable readAsDataURL : File -> string.

#[local] Abbreviation stepW := (step splitTextToSize ps readAsDataURL).
#[local] Abbreviation runW := (run splitTextToSize ps readAsDataURL).

Lemma run_snoc t e w : runW (t ++ [e]) w = stepW e (runW t w).
Proof. unfold run. now rewrite fold_left_app. Qed.

Lemma run_app t1 t2 w : runW (t1 ++ t2) w = runW t2 (runW t1 w).
Proof. unfold run. apply fold_left_app. Qed.

Lemma uploadsOf_snoc t e :
  uploadsOf (t ++ [e]) = (uploadsOf t ++ uploadOf e)%list.
Proof. unfold uploadsOf. rewrite flat_map_app. cbn. now rewrite app_nil_r. Qed.

Lemma In_firstn {A} (i : nat) : forall (l : list A) x,
  In x (firstn i l) -> In x l.
Proof.
  induction i as [|i IH]; intros [|y l] x Hx; cbn in *; try contradiction.
  destruct Hx as [->|Hx]; [now left|right; now apply IH].
Qed.

Lemma In_skipn {A} (i : nat) : forall (l : list A) x,
  In x (skipn i l) -> In x l.
Proof.
  induction i as [|i IH]; intros [|y l] x Hx; cbn in *; try contradiction;
    try exact Hx.
  right. now apply IH.
Qed.

Lemma analyzeResume_reportOf f st :
  exists r,
    analysis (analyzeResume f (getFilePreview readAsDataURL f) st) = Some r
    /\ reportOf readAsDataURL f r.
Proof. eexists. split; [reflexivity|]. repeat split. Qed.

Lemma handleDownloadReport_names today st saved :
  Forall (fun d => fst d = saveName) saved ->
  Forall (fun d => fst d = saveName)
         (handleDownloadReport splitTextToSize ps today st saved).
Proof.
  intro Hall. unfold handleDownloadReport.
  destruct (analysis st); [|exact Hall].
  apply Forall_app. split; [exact Hall|]. constructor; [reflexivity|constructor].
Qed.

Lemma appInv_upload t e f w :
  uploadOf e = [f] ->
  appInv readAsDataURL t w ->
  appInv readAsDataURL (t ++ [e])
         (handleFileUpload f w).
Proof.
  intros He (Hfile & Hread & Han & Hnames).
  unfold appInv. rewrite uploadsOf_snoc, He. cbn [handleFileUpload appState
    reading downloads setFile file analysis].
  split; [|split; [|split]].
  - now rewrite rev_app_distr.
  - apply incl_app; [now apply incl_appl|apply incl_appr, incl_refl].
  - destruct (analysis (appState w)) as [r|]; [|exact I].
    destruct Han as (g & Hg & Hr). exists g. split; [|exact Hr].
    apply in_or_app. now left.
  - exact Hnames.
Qed.

Lemma appInv_idle t e w w' :
  uploadOf e = [] ->
  file (appState w') = file (appState w) ->
  analysis (appState w') = analysis (appState w) ->
  reading w' = reading w ->
  Forall (fun d => fst d = saveName) (downloads w') ->
  appInv readAsDataURL t w ->
  appInv readAsDataURL (t ++ [e]) w'.
Proof.
  intros He Hf Ha Hr Hd (Hfile & Hread & Han & _).
  unfold appInv. rewrite uploadsOf_snoc, He, app_nil_r, Hf, Ha, Hr.
  split; [exact Hfile|]. split; [exact Hread|]. split; [exact Han|exact Hd].
Qed.

Lemma appInv_step t e w :
  appInv readAsDataURL t w -> appInv readAsDataURL (t ++ [e]) (stepW e w).
Proof.
  intro Hinv. pose proof Hinv as (Hfile & Hread & Han & Hnames).
  destruct e as [| |files|files|i|today]; cbn [step].
  - now apply (appInv_idle t DragOver w).
  - now apply (appInv_idle t DragLeave w).
  - unfold handleDrop. destruct files as [|f files].
    + now apply (appInv_idle t (Drop []) w).
    + apply appInv_upload; [reflexivity|].
      split; [exact Hfile|]. split; [exact Hread|]. split; [exact Han|].
      exact Hnames.
  - unfold handleFileSelect. destruct files as [[|f files]|].
    + now apply (appInv_idle t (FileSelect (Some [])) w).
    + now apply appInv_upload.
    + now apply (appInv_idle t (FileSelect None) w).
  - unfold fileUploadLoaded.
    destruct (nth_error (reading w) i) as [f|] eqn:Hnth.
    + unfold appInv. rewrite uploadsOf_snoc. cbn [uploadOf].
      rewrite app_nil_r. cbn [appState reading downloads].
      split; [exact Hfile|]. split; [|split; [|exact Hnames]].
      * intros g Hg. apply Hread. apply in_app_or in Hg.
        destruct Hg as [Hg|Hg];
          [exact (In_firstn _ _ _ Hg)|exact (In_skipn _ _ _ Hg)].
      * destruct (analyzeResume_reportOf f (appState w)) as (r & -> & Hr).
        exists f. split; [|exact Hr].
        apply Hread. eapply nth_error_In. exact Hnth.
    + now apply (appInv_idle t (PreviewLoaded i) w).
  - apply (appInv_idle t (DownloadClick today) w); try reflexivity;
      [|exact Hinv].
    now apply handleDownloadReport_names.
Qed.

End AppFacts.

Lemma appInv_run splitTextToSize ps readAsDataURL t :
  appInv readAsDataURL t (run splitTextToSize ps readAsDataURL t initialWorld).
Proof.
  induction t as [|e t IH] using rev_ind.
  - cbn. split; [reflexivity|]. split; [apply incl_refl|].
    split; [exact I|constructor].
  - rewrite run_snoc. now apply appInv_step.
Qed.

(** X8.  After any sequence of events: the stored file is the first file of
    the latest drop or selection that carried one (empty and null file
    lists, and the further files of a list, change nothing); the reads
    in flight are of uploaded files; a stored report is the report of
    one of the uploaded files, with that file's name and data URL and
    the constant remainder, and then a file is stored too; and every
    file handed to the browser is named [detailed-resume-analysis.pdf]. *)
Theorem state_follows_uploads
        (splitTextToSize : Z -> string -> Q -> list string) (ps : PageSize)
        (readAsDataURL : File -> string) (t : list Event) :
  file (appState (run splitTextToSize ps readAsDataURL t initialWorld))
  = hd_error (rev (uploadsOf t))
  /\ incl (reading (run splitTextToSize ps readAsDataURL t initialWorld))
          (uploadsOf t)
  /\ match analysis
             (appState (run splitTextToSize ps readAsDataURL t initialWorld))
     with
     | None => True
     | Some r =>
         file (appState (run splitTextToSize ps readAsDataURL t initialWorld))
         <> None
         /\ exists f,
              In f (uploadsOf t)
              /\ fileName r = name f
              /\ filePreview r = readAsDataURL f
              /\ fixedPart r = fixedPart sampleReport
     end
  /\ Forall (fun d => fst d = "detailed-resume-analysis.pdf")
            (downloads (run splitTextToSize ps readAsDataURL t initialWorld)).
Proof.
  destruct (appInv_run splitTextToSize ps readAsDataURL t)
    as (Hfile & Hread & Han & Hnames).
  split; [exact Hfile|]. split; [exact Hread|]. split; [|exact Hnames].
  destruct (analysis _) as [r|]; [|exact I].
  destruct Han as (f & Hf & Hname & Hprev & Hfixed).
  split; [|exists f; repeat split; assumption].
  rewrite Hfile. destruct (rev (uploadsOf t)) as [|g l] eqn:Hrev;
    [|discriminate].
  apply (f_equal (@rev File)) in Hrev. rewrite rev_involutive in Hrev.
  rewrite Hrev in Hf. destruct Hf.
Qed.

Lemma step_keeps_report splitTextToSize ps readAsDataURL e w :
  analysis (appState w) <> None ->
  analysis (appState (step splitTextToSize ps readAsDataURL e w)) <> None.
Proof.
  intro Hsome. destruct e as [| |files|files|i|today]; cbn [step];
    try exact Hsome.
  - unfold handleDrop. destruct files; exact Hsome.
  - unfold handleFileSelect. destruct files as [[|f files]|]; exact Hsome.
  - unfold fileUploadLoaded. destruct (nth_error (reading w) i);
      [discriminate|exact Hsome].
Qed.

Lemma run_keeps_report splitTextToSize ps readAsDataURL t : forall w,
  analysis (appState w) <> None ->
  analysis (appState (run splitTextToSize ps readAsDataURL t w)) <> None.
Proof.
  induction t as [|e t IH]; intros w Hsome; [exact Hsome|].
  cbn [run fold_left]. apply IH. now apply step_keeps_report.
Qed.

(** X9.  No event clears a stored report; so once a read has completed,
    every later click on the download button, whatever happened in
    between, hands the browser exactly one more file. *)
Theorem report_stays_and_clicks_save
        (splitTextToSize : Z -> string -> Q -> list string) (ps : PageSize)
        (readAsDataURL : File -> string) (t : list Event) (today : string)
        (w : World) :
  analysis (appState w) <> None ->
  analysis (appState (run splitTextToSize ps readAsDataURL t w)) <> None
  /\ exists r,
       analysis (appState (run splitTextToSize ps readAsDataURL t w)) = Some r
       /\ downloads (run splitTextToSize ps readAsDataURL
                         (t ++ [DownloadClick today]) w)
          = (downloads (run splitTextToSize ps readAsDataURL t w)
             ++ [("detailed-resume-analysis.pdf",
                  doc (render splitTextToSize ps today r))])%list.
Proof.
  intro Hsome.
  pose proof (run_keeps_report splitTextToSize ps readAsDataURL t w Hsome)
    as Hkept.
  split; [exact Hkept|].
  destruct (analysis (appState (run splitTextToSize ps readAsDataURL t w)))
    as [r|] eqn:Hr; [|congruence].
  exists r. split; [reflexivity|].
  rewrite run_snoc. cbn [step clickDownload downloads].
  unfold handleDownloadReport. now rewrite Hr.
Qed.

Lemma report_stays_and_clicks_save_witness :
  analysis (appState (run oneLine a4 sampleReader
                          [Drop [sampleFile]; PreviewLoaded 0] initialWorld))
  <> None
  /\ List.length
       (downloads (run oneLine a4 sampleReader
                       ([Drop [sampleFile]; PreviewLoaded 0]
                        ++ [DragOver; FileSelect None; Drop []]
                        ++ [DownloadClick "11/2/2026"]) initialWorld))
     = 1%nat.
Proof.
  assert (Hsome : analysis
                    (appState (run oneLine a4 sampleReader
                                   [Drop [sampleFile]; PreviewLoaded 0]
                                   initialWorld)) <> None)
    by discriminate.
  split; [exact Hsome|].
  destruct (report_stays_and_clicks_save
              oneLine a4 sampleReader [DragOver; FileSelect None; Drop []]
              "11/2/2026" _ Hsome) as (_ & r & _ & Hsaved).
  rewrite run_app, Hsaved, length_app. reflexivity.
Defined.

(** X10.  Until the read of some upload has completed, no report is stored
    and nothing is saved, whatever was dragged, dropped, selected or
    clicked: the download handler returns at its guard. *)
Theorem nothing_saved_before_a_read_completes
        (splitTextToSize : Z -> string -> Q -> list string) (ps : PageSize)
        (readAsDataURL : File -> string) (t : list Event) :
  Forall (fun e => isPreviewLoaded e = false) t ->
  analysis (appState (run splitTextToSize ps readAsDataURL t initialWorld))
  = None
  /\ downloads (run splitTextToSize ps readAsDataURL t initialWorld) = [].
Proof.
  induction t as [|e t IH] using rev_ind; intro Hall; [split; reflexivity|].
  apply Forall_app in Hall. destruct Hall as [Ht He].
  inversion He as [|? ? Hnot _]; subst.
  destruct (IH Ht) as [Hnone Hempty]. rewrite run_snoc.
  destruct e as [| |files|files|i|today]; cbn [step];
    try discriminate Hnot.
  - split; [exact Hnone|exact Hempty].
  - split; [exact Hnone|exact Hempty].
  - unfold handleDrop. destruct files; split; assumption.
  - unfold handleFileSelect. destruct files as [[|f files]|];
      split; assumption.
  - cbn [clickDownload appState downloads]. split; [exact Hnone|].
    unfold handleDownloadReport. now rewrite Hnone.
Qed.

Lemma nothing_saved_before_a_read_completes_witness :
  Forall (fun e => isPreviewLoaded e = false)
         [DragOver; Drop [sampleFile]; DownloadClick "11/2/2026"]
  /\ file (appState (run oneLine a4 sampleReader
                         [DragOver; Drop [sampleFile];
                          DownloadClick "11/2/2026"] initialWorld))
     = Some sampleFile
  /\ downloads (run oneLine a4 sampleReader
                    [DragOver; Drop [sampleFile]; DownloadClick "11/2/2026"]
                    initialWorld) = [].
Proof.
  assert (Hall : Forall (fun e => isPreviewLoaded e = false)
                        [DragOver; Drop [sampleFile];
                         DownloadClick "11/2/2026"])
    by (repeat constructor).
  split; [exact Hall|]. split; [reflexivity|].
  exact (proj2 (nothing_saved_before_a_read_completes
                  oneLine a4 sampleReader _ Hall)).
Defined.

Lemma fifoInv_step splitTextToSize ps readAsDataURL e w :
  inOrder e ->
  fifoInv readAsDataURL w ->
  fifoInv readAsDataURL (step splitTextToSize ps readAsDataURL e w).
Proof.
  intros He Hinv.
  assert (Hup : forall f b,
             fifoInv readAsDataURL
               (handleFileUpload f
                  (mkWorld (setIsDragging b (appState w)) (reading w)
                           (downloads w)))).
  { intros f b. right. exists (reading w), f. split; reflexivity. }
  assert (Hup' : forall f, fifoInv readAsDataURL (handleFileUpload f w)).
  { intros f. right. exists (reading w), f. split; reflexivity. }
  assert (Hdrag : forall b,
             fifoInv readAsDataURL
               (mkWorld (setIsDragging b (appState w)) (reading w)
                        (downloads w))).
  { intro b. destruct Hinv as [[Hr Hs]|(front & f & Hr & Hf)].
    - left. split; [exact Hr|exact Hs].
    - right. exists front, f. split; [exact Hr|exact Hf]. }
  destruct e as [| |files|files|i|today]; cbn [step].
  - apply Hdrag.
  - apply Hdrag.
  - unfold handleDrop. destruct files; [apply Hdrag|apply Hup].
  - unfold handleFileSelect. destruct files as [[|f files]|];
      [exact Hinv|apply Hup'|exact Hinv].
  - cbn [inOrder] in He. subst i. unfold fileUploadLoaded.
    destruct Hinv as [[Hr Hs]|(front & f & Hr & Hf)].
    + rewrite Hr. cbn [nth_error]. left. split; [exact Hr|exact Hs].
    + rewrite Hr. destruct front as [|g front]; cbn [app nth_error firstn skipn].
      * left. cbn [reading appState]. split; [reflexivity|].
        unfold settled, analyzeResume. cbn [appState file analysis].
        rewrite Hf. split; reflexivity.
      * right. exists front, f. split; [reflexivity|exact Hf].
  - destruct Hinv as [[Hr Hs]|(front & f & Hr & Hf)].
    + left. split; [exact Hr|exact Hs].
    + right. exists front, f. split; [exact Hr|exact Hf].
Qed.

(** X11.  When reads complete in the order they were started, then whenever
    no read is in flight the stored report is the report of the stored
    file (its name and its data URL), or neither is there; and while
    reads are in flight, the newest of them is the one of the stored
    file. *)
Theorem in_order_reads_agree
        (splitTextToSize : Z -> string -> Q -> list string) (ps : PageSize)
        (readAsDataURL : File -> string) (t : list Event) :
  Forall inOrder t ->
  (reading (run splitTextToSize ps readAsDataURL t initialWorld) = [] ->
   match file (appState (run splitTextToSize ps readAsDataURL t
                             initialWorld)),
         analysis (appState (run splitTextToSize ps readAsDataURL t
                                 initialWorld))
   with
   | None, None => True
   | Some f, Some r =>
       fileName r = name f /\ filePreview r = readAsDataURL f
   | _, _ => False
   end)
  /\ (reading (run splitTextToSize ps readAsDataURL t initialWorld) <> [] ->
      exists front f,
        reading (run splitTextToSize ps readAsDataURL t initialWorld)
        = (front ++ [f])%list
        /\ file (appState (run splitTextToSize ps readAsDataURL t
                               initialWorld)) = Some f).
Proof.
  intro Hall.
  assert (Hinv : fifoInv readAsDataURL
                   (run splitTextToSize ps readAsDataURL t initialWorld)).
  { induction t as [|e t IH] using rev_ind.
    - left. split; [reflexivity|exact I].
    - apply Forall_app in Hall. destruct Hall as [Ht He].
      inversion He as [|? ? Hin _]; subst.
      rewrite run_snoc. apply fifoInv_step; [exact Hin|now apply IH]. }
  destruct Hinv as [[Hr Hs]|(front & f & Hr & Hf)].
  - split; [intros _; exact Hs|congruence].
  - split.
    + intro Hnil. rewrite Hr in Hnil. now destruct front.
    + intros _. exists front, f. split; [exact Hr|exact Hf].
Qed.

Lemma in_order_reads_agree_witness :
  Forall inOrder
         [Drop [sampleFile]; FileSelect (Some [otherFile]);
          PreviewLoaded 0; PreviewLoaded 0]
  /\ reading (run oneLine a4 sampleReader
                  [Drop [sampleFile]; FileSelect (Some [otherFile]);
                   PreviewLoaded 0; PreviewLoaded 0] initialWorld) = []
  /\ match file (appState (run oneLine a4 sampleReader
                               [Drop [sampleFile];
                                FileSelect (Some [otherFile]);
                                PreviewLoaded 0; PreviewLoaded 0]
                               initialWorld)),
           analysis (appState (run oneLine a4 sampleReader
                                   [Drop [sampleFile];
                                    FileSelect (Some [otherFile]);
                                    PreviewLoaded 0; PreviewLoaded 0]
                                   initialWorld))
     with
     | None, None => True
     | Some f, Some r =>
         fileName r = name f /\ filePreview r = sampleReader f
     | _, _ => False
     end.
Proof.
  assert (Hall : Forall inOrder
                        [Drop [sampleFile]; FileSelect (Some [otherFile]);
                         PreviewLoaded 0; PreviewLoaded 0])
    by (repeat constructor).
  split; [exact Hall|]. split; [reflexivity|].
  exact (proj1 (in_order_reads_agree oneLine a4 sampleReader _ Hall)
               eq_refl).
Defined.

(** X12.  Nothing ties a completing read to the stored file: when two
    uploads overlap and the second read completes first, the component
    ends, with no read in flight, holding the second file together with
    the report of the first. *)
Theorem out_of_order_reads_disagree
        (splitTextToSize : Z -> string -> Q -> list string) (ps : PageSize)
        (readAsDataURL : File -> string) (f1 f2 : File) :
  exists t r,
    reading (run splitTextToSize ps readAsDataURL t initialWorld) = []
    /\ file (appState (run splitTextToSize ps readAsDataURL t initialWorld))
       = Some f2
    /\ analysis (appState (run splitTextToSize ps readAsDataURL t
                               initialWorld)) = Some r
    /\ fileName r = name f1
    /\ filePreview r = readAsDataURL f1.
Proof.
  exists [Drop [f1]; FileSelect (Some [f2]); PreviewLoaded 1; PreviewLoaded 0].
  eexists. split; [reflexivity|]. split; [reflexivity|].
  split; [reflexivity|]. split; reflexivity.
Qed.
